(** * Prompt manager: entity conversions, storage layer, service rules
      and console

    A shallow embedding of [models.py], [database.py], [services.py],
    [api.py] and [main.py], with the messages of [config.py] as a
    parameter of the console.

    Python strings are modelled by [string]; a character stands for a code
    point below 256.  Python [int] is [Z], [Optional[T]] is [option T].
    The MySQL server reached through [mysql.connector] is modelled by an
    explicit connection state (the rows of the single table [prompts], the
    AUTO_INCREMENT counter, the transaction state) together with a schedule
    of driver faults, so that the [try]/[except Error] paths of the storage
    layer can be exercised. *)

From Stdlib Require Import ZArith List Bool Ascii String Lia.
Import ListNotations.
Open Scope string_scope.

(* ===================================================================== *)
(** ** Python built-ins used by the sources *)
(* ===================================================================== *)

Module py.

(** [str.isspace] on one character (code points below 256): TAB..CR,
    FS..US, SPACE, NEL and NBSP. *)
Definition is_space (c : ascii) : bool :=
  let n := N_of_ascii c in
  (((9 <=? n) && (n <=? 13)) || ((28 <=? n) && (n <=? 32))
   || (n =? 133) || (n =? 160))%N.

(** [s.lstrip()] *)
Fixpoint lstrip (s : string) : string :=
  match s with
  | EmptyString => EmptyString
  | String c s' => if is_space c then lstrip s' else s
  end.

(** [s.rstrip()] *)
Fixpoint rstrip (s : string) : string :=
  match s with
  | EmptyString => EmptyString
  | String c s' =>
      match rstrip s' with
      | EmptyString => if is_space c then EmptyString else String c EmptyString
      | r => String c r
      end
  end.

(** [s.strip()]: leading and trailing whitespace removed. *)
Definition strip (s : string) : string := rstrip (lstrip s).

(** [s.split(sep)] for a one-character separator: never returns the
    empty list ([''.split(',') == ['']]). *)
Fixpoint split (sep : ascii) (s : string) : list string :=
  match s with
  | EmptyString => [EmptyString]
  | String c s' =>
      if Ascii.eqb c sep then EmptyString :: split sep s'
      else match split sep s' with
           | piece :: rest => String c piece :: rest
           | [] => [String c EmptyString]
           end
  end.

(** [sep.join(l)] *)
Fixpoint join (sep : string) (l : list string) : string :=
  match l with
  | [] => EmptyString
  | x :: rest =>
      match rest with
      | [] => x
      | _ :: _ => x ++ sep ++ join sep rest
      end
  end.

(** Truth value of a string: [bool(s)]. *)
Definition truthy (s : string) : bool :=
  match s with
  | EmptyString => false
  | String _ _ => true
  end.

(** [c in s] for a character [c]. *)
Fixpoint contains (c : ascii) (s : string) : bool :=
  match s with
  | EmptyString => false
  | String d s' => Ascii.eqb d c || contains c s'
  end.

End py.

(** The tag delimiter of the storage format. *)
Definition comma : ascii := ","%char.

(* ===================================================================== *)
(** ** models.py *)
(* ===================================================================== *)

Module models.

(** The dataclass [Prompt]. *)
Record Prompt : Type := mkPrompt {
  id : option Z;
  text : string;
  tags : list string;
  tool : string;
  is_favorite : bool
}.

(** The dictionary exchanged with the database: the keys ['id'], ['text'],
    ['tags'], ['tool'], ['is_favorite'].  The value under ['tags'] may be
    [None] (a NULL column); [is_favorite] is already read through [bool]. *)
Record dict : Type := mkDict {
  d_id : option Z;
  d_text : string;
  d_tags : option string;
  d_tool : string;
  d_is_favorite : bool
}.

(** [Prompt.to_dict] *)
Definition to_dict (self : Prompt) : dict :=
  {| d_id := id self;
     d_text := text self;
     d_tags := Some (py.join "," (tags self));
     d_tool := tool self;
     d_is_favorite := is_favorite self |}.

(** The list comprehension of [from_dict]:
    [[tag.strip() for tag in s.split(',') if tag.strip()]]. *)
Definition strip_pieces (s : string) : list string :=
  map py.strip (filter (fun tag => py.truthy (py.strip tag)) (py.split comma s)).

(** The tags part of [from_dict]: [tags_list = []], replaced by the
    comprehension when [data.get('tags')] is truthy. *)
Definition tags_of (v : option string) : list string :=
  match v with
  | None => []
  | Some s => if py.truthy s then strip_pieces s else []
  end.

(** [Prompt.from_dict] *)
Definition from_dict (data : dict) : Prompt :=
  {| id := d_id data;
     text := d_text data;
     tags := tags_of (d_tags data);
     tool := d_tool data;
     is_favorite := d_is_favorite data |}.

End models.
Import models.

(* ===================================================================== *)
(** ** State and exceptions *)
(* ===================================================================== *)

(** The one exception class the storage layer handles:
    [mysql.connector.Error]. *)
Inductive exn : Type := Error.

(** How a call ends: it returns a value or an exception leaves it. *)
Inductive outcome (A : Type) : Type :=
| Ret (a : A)
| Raise (e : exn).
Arguments Ret {A} a.
Arguments Raise {A} e.

(** A computation over a mutable state [S]. *)
Definition M (S A : Type) : Type := S -> S * outcome A.

Definition ret {S A} (a : A) : M S A := fun s => (s, Ret a).

Definition bind {S A B} (m : M S A) (k : A -> M S B) : M S B :=
  fun s =>
    match m s with
    | (s', Ret a) => k a s'
    | (s', Raise e) => (s', Raise e)
    end.

(** [try: body  except Error as e: handler e] *)
Definition try_except {S A} (body : M S A) (handler : exn -> M S A) : M S A :=
  fun s =>
    match body s with
    | (s', Ret a) => (s', Ret a)
    | (s', Raise e) => handler e s'
    end.

Notation "x <- m ;; k" := (bind m (fun x => k))
  (at level 61, m at next level, right associativity).
Notation "'try' body 'except' h" := (try_except body h)
  (at level 61, body at next level, h at next level).

(* ===================================================================== *)
(** ** The MySQL server seen through mysql.connector *)
(* ===================================================================== *)

Module mysql.

(** A row of the table [prompts] created by [create_table]:
    [id INT AUTO_INCREMENT PRIMARY KEY, text TEXT NOT NULL,
     tags VARCHAR(255), tool VARCHAR(255), is_favorite BOOLEAN]. *)
Record Row : Type := mkRow {
  row_id : Z;
  row_text : string;
  row_tags : string;
  row_tool : string;
  row_is_favorite : bool
}.

Definition row_eqb (a b : Row) : bool :=
  (row_id a =? row_id b)%Z && String.eqb (row_text a) (row_text b)
  && String.eqb (row_tags a) (row_tags b) && String.eqb (row_tool a) (row_tool b)
  && Bool.eqb (row_is_favorite a) (row_is_favorite b).

(** A row as a [cursor(dictionary=True)] hands it over. *)
Definition as_dict (r : Row) : dict :=
  {| d_id := Some (row_id r);
     d_text := row_text r;
     d_tags := Some (row_tags r);
     d_tool := row_tool r;
     d_is_favorite := row_is_favorite r |}.

(** *** The LIKE operator *)

(** Comparison of two characters under the column collation, which is
    case-insensitive by default.  On the printable ASCII characters the
    collations a server installs by default agree: letters are compared
    without case, every other character equals itself only.  Beyond ASCII
    they differ from one another (accents, ligatures); there this
    definition compares code points, and what is stated about the rows a
    keyword finds is stated for ASCII text. *)
Definition fold_case (c : ascii) : ascii :=
  let n := N_of_ascii c in
  if ((65 <=? n) && (n <=? 90))%N then ascii_of_N (n + 32) else c.

Definition coll_eqb (a b : ascii) : bool := Ascii.eqb (fold_case a) (fold_case b).

(** [s LIKE p]: [%] matches any run of characters, [_] any one character,
    a backslash takes the next pattern character literally. *)
Fixpoint like (p : string) : string -> bool :=
  match p with
  | EmptyString => fun s => match s with EmptyString => true | _ => false end
  | String a p' =>
      if Ascii.eqb a "%" then
        fix any (s : string) : bool :=
          like p' s || match s with
                       | EmptyString => false
                       | String _ s' => any s'
                       end
      else if Ascii.eqb a "_" then
        fun s => match s with
                 | EmptyString => false
                 | String _ s' => like p' s'
                 end
      else if Ascii.eqb a "\" then
        match p' with
        | EmptyString =>
            fun s => match s with
                     | String b EmptyString => coll_eqb a b
                     | _ => false
                     end
        | String e p'' =>
            fun s => match s with
                     | EmptyString => false
                     | String b s' => coll_eqb e b && like p'' s'
                     end
        end
      else
        fun s => match s with
                 | EmptyString => false
                 | String b s' => coll_eqb a b && like p' s'
                 end
  end.

(** *** Statements and cursors *)

(** The seven statements the storage layer sends, with their parameters. *)
Inductive Sql : Type :=
| CREATE_TABLE
| INSERT (text tags tool : string) (is_favorite : bool)
| SELECT_BY_ID (prompt_id : Z)
| UPDATE (text tags tool : string) (is_favorite : bool) (prompt_id : Z)
| DELETE (prompt_id : Z)
| SELECT_ALL
| SELECT_LIKE (t1 t2 t3 : string).

(** What a cursor holds after [execute]. *)
Record Cursor : Type := mkCursor {
  result : list Row;
  rowcount : Z;
  lastrowid : option Z
}.

Definition fetchone (cur : Cursor) : option dict :=
  match result cur with
  | [] => None
  | r :: _ => Some (as_dict r)
  end.

Definition fetchall (cur : Cursor) : list dict := map as_dict (result cur).

(** *** The connection *)

(** The state behind a connection object.  Autocommit is off: statements
    act on [working], [commit] makes it durable, [rollback] discards it.
    [found_rows] is the client flag that decides what an UPDATE counts
    (rows matched when set, rows actually changed otherwise).  [faults]
    schedules the driver calls to come: [true] makes the next call raise
    [Error]; an exhausted schedule means no more faults. *)
Record Conn : Type := mkConn {
  committed : list Row;
  working : list Row;
  next_id : Z;
  found_rows : bool;
  faults : list bool
}.

Definition has_id (k : Z) (r : Row) : bool := (row_id r =? k)%Z.

(** One call into the driver: consumes the head of the schedule. *)
Definition driver_call : M Conn unit :=
  fun c =>
    match faults c with
    | [] => (c, Ret tt)
    | b :: fs =>
        let c' := mkConn (committed c) (working c) (next_id c) (found_rows c) fs in
        if b then (c', Raise Error) else (c', Ret tt)
    end.

Definition set_working (c : Conn) (w : list Row) : Conn :=
  mkConn (committed c) w (next_id c) (found_rows c) (faults c).

(** The table an UPDATE leaves: every row with the id of [new] becomes
    [new]. *)
Definition overwrite (new : Row) (rows : list Row) : list Row :=
  map (fun r => if has_id (row_id new) r then new else r) rows.

(** The effect of a statement that the server accepted. *)
Definition run (q : Sql) (c : Conn) : Conn * Cursor :=
  match q with
  | CREATE_TABLE =>
      (* IF NOT EXISTS: the rows stay; DDL commits implicitly *)
      (mkConn (working c) (working c) (next_id c) (found_rows c) (faults c),
       mkCursor [] 0 None)
  | INSERT t g l f =>
      let k := next_id c in
      (mkConn (committed c) (working c ++ [mkRow k t g l f]) (k + 1)
              (found_rows c) (faults c),
       mkCursor [] 1 (Some k))
  | SELECT_BY_ID k =>
      let rs := filter (has_id k) (working c) in
      (c, mkCursor rs (Z.of_nat (List.length rs)) None)
  | UPDATE t g l f k =>
      let new := mkRow k t g l f in
      let hit := filter (has_id k) (working c) in
      let changed := filter (fun r => negb (row_eqb r new)) hit in
      (set_working c (overwrite new (working c)),
       mkCursor [] (Z.of_nat (List.length (if found_rows c then hit else changed))) None)
  | DELETE k =>
      let hit := filter (has_id k) (working c) in
      (set_working c (filter (fun r => negb (has_id k r)) (working c)),
       mkCursor [] (Z.of_nat (List.length hit)) None)
  | SELECT_ALL =>
      (c, mkCursor (working c) (Z.of_nat (List.length (working c))) None)
  | SELECT_LIKE t1 t2 t3 =>
      let rs := filter (fun r => like t1 (row_text r) || like t2 (row_tags r)
                                 || like t3 (row_tool r)) (working c) in
      (c, mkCursor rs (Z.of_nat (List.length rs)) None)
  end.

(** [connection.cursor()] *)
Definition cursor : M Conn unit := driver_call.

(** [cursor.execute(sql, values)] *)
Definition execute (q : Sql) : M Conn Cursor :=
  _ <- driver_call ;; (fun c => let (c', cur) := run q c in (c', Ret cur)).

(** [connection.commit()] *)
Definition commit : M Conn unit :=
  _ <- driver_call ;;
  (fun c => (mkConn (working c) (working c) (next_id c) (found_rows c) (faults c),
             Ret tt)).

(** [connection.rollback()] *)
Definition rollback : M Conn unit :=
  _ <- driver_call ;;
  (fun c => (mkConn (committed c) (committed c) (next_id c) (found_rows c) (faults c),
             Ret tt)).

End mysql.
Import mysql.

(* ===================================================================== *)
(** ** database.py *)
(* ===================================================================== *)

Module database.

(** The object state of [PromptDB]: the connection handle, [None] when
    [connect] failed. *)
Record PromptDB : Type := mkPromptDB {
  connection : option Conn
}.

(** Runs driver calls on the connection object held by [self].  The
    [cursor.close()] of every [finally] clause leaves the modelled state
    as it is, and the [print] calls are not modelled. *)
Definition on (conn : Conn) {A} (m : M Conn A) : PromptDB * outcome A :=
  let (conn', r) := m conn in (mkPromptDB (Some conn'), r).

(** [connect]: [mysql.connector.connect] either hands over a connection or
    raises [Error], which leaves the handle [None]. *)
Definition connect (attempt : outcome Conn) : PromptDB :=
  match attempt with
  | Ret conn => mkPromptDB (Some conn)
  | Raise _ => mkPromptDB None
  end.

(** [create_table] *)
Definition create_table : M PromptDB unit :=
  fun self =>
    match connection self with
    | None => (self, Ret tt)
    | Some conn =>
        on conn (
          _ <- cursor ;;
          try (_ <- execute CREATE_TABLE ;;
               _ <- commit ;;
               ret tt)
          except (fun _ => ret tt))
    end.

(** [__init__] *)
Definition init (attempt : outcome Conn) : PromptDB * outcome unit :=
  create_table (connect attempt).

(** [insert_prompt] *)
Definition insert_prompt (prompt : Prompt) : M PromptDB (option Z) :=
  fun self =>
    match connection self with
    | None => (self, Ret None)
    | Some conn =>
        let sql := INSERT (text prompt) (py.join "," (tags prompt)) (tool prompt)
                          (is_favorite prompt) in
        on conn (
          _ <- cursor ;;
          try (cur <- execute sql ;;
               _ <- commit ;;
               ret (lastrowid cur))
          except (fun _ => _ <- rollback ;; ret None))
    end.

(** [get_prompt_by_id] *)
Definition get_prompt_by_id (prompt_id : Z) : M PromptDB (option Prompt) :=
  fun self =>
    match connection self with
    | None => (self, Ret None)
    | Some conn =>
        on conn (
          _ <- cursor ;;
          try (cur <- execute (SELECT_BY_ID prompt_id) ;;
               let record := fetchone cur in
               ret (match record with
                    | Some data => Some (from_dict data)
                    | None => None
                    end))
          except (fun _ => ret None))
    end.

(** [update_prompt] *)
Definition update_prompt (prompt : Prompt) : M PromptDB bool :=
  fun self =>
    match connection self with
    | None => (self, Ret false)
    | Some conn =>
        match id prompt with
        | None => (self, Ret false)
        | Some prompt_id =>
            let sql := UPDATE (text prompt) (py.join "," (tags prompt)) (tool prompt)
                              (is_favorite prompt) prompt_id in
            on conn (
              _ <- cursor ;;
              try (cur <- execute sql ;;
                   _ <- commit ;;
                   ret (0 <? rowcount cur)%Z)
              except (fun _ => _ <- rollback ;; ret false))
        end
    end.

(** [delete_prompt] *)
Definition delete_prompt (prompt_id : Z) : M PromptDB bool :=
  fun self =>
    match connection self with
    | None => (self, Ret false)
    | Some conn =>
        on conn (
          _ <- cursor ;;
          try (cur <- execute (DELETE prompt_id) ;;
               _ <- commit ;;
               ret (0 <? rowcount cur)%Z)
          except (fun _ => _ <- rollback ;; ret false))
    end.

(** [get_all_prompts] *)
Definition get_all_prompts : M PromptDB (list Prompt) :=
  fun self =>
    match connection self with
    | None => (self, Ret [])
    | Some conn =>
        on conn (
          _ <- cursor ;;
          try (cur <- execute SELECT_ALL ;;
               ret (map from_dict (fetchall cur)))
          except (fun _ => ret []))
    end.

(** [search_prompts] *)
Definition search_prompts (keyword : string) : M PromptDB (list Prompt) :=
  fun self =>
    match connection self with
    | None => (self, Ret [])
    | Some conn =>
        let search_term := "%" ++ keyword ++ "%" in
        on conn (
          _ <- cursor ;;
          try (cur <- execute (SELECT_LIKE search_term search_term search_term) ;;
               ret (map from_dict (fetchall cur)))
          except (fun _ => ret []))
    end.

End database.

(* ===================================================================== *)
(** ** services.py *)
(* ===================================================================== *)

(** [PromptService] holds one attribute, [self.db]; its methods are
    computations over that [PromptDB]. *)
Module services.

Import database.

(** [add_prompt] *)
Definition add_prompt (text : string) (tags : list string) (tool : string)
  : M PromptDB (option Z) :=
  let prompt := mkPrompt None text tags tool false in
  insert_prompt prompt.

(** [get_prompt] *)
Definition get_prompt (prompt_id : Z) : M PromptDB (option Prompt) :=
  get_prompt_by_id prompt_id.

(** [update_prompt] *)
Definition update_prompt (prompt_id : Z) (text : string) (tags : list string)
    (tool : string) (is_favorite : bool) : M PromptDB bool :=
  prompt <- get_prompt_by_id prompt_id ;;
  match prompt with
  | Some p => database.update_prompt (mkPrompt (id p) text tags tool is_favorite)
  | None => ret false
  end.

(** [delete_prompt] *)
Definition delete_prompt (prompt_id : Z) : M PromptDB bool :=
  database.delete_prompt prompt_id.

(** [list_all_prompts] *)
Definition list_all_prompts : M PromptDB (list Prompt) := get_all_prompts.

(** [search_and_filter_prompts] *)
Definition search_and_filter_prompts (keyword : option string)
    (is_favorite : option bool) : M PromptDB (list Prompt) :=
  prompts <- (match keyword with
              | Some kw => if py.truthy kw then search_prompts kw else get_all_prompts
              | None => get_all_prompts
              end) ;;
  match is_favorite with
  | Some wanted =>
      ret (filter (fun p => Bool.eqb (models.is_favorite p) wanted) prompts)
  | None => ret prompts
  end.

(** [toggle_favorite_status] *)
Definition toggle_favorite_status (prompt_id : Z) : M PromptDB (option bool) :=
  prompt <- get_prompt_by_id prompt_id ;;
  match prompt with
  | Some p =>
      let p' := mkPrompt (id p) (text p) (tags p) (tool p) (negb (models.is_favorite p)) in
      ok <- database.update_prompt p' ;;
      if ok then ret (Some (models.is_favorite p')) else ret None
  | None => ret None
  end.

End services.

(* ===================================================================== *)
(** ** api.py *)
(* ===================================================================== *)

(** [PromptManagerAPI] holds one attribute, [self.service], whose only
    state is the [PromptDB]. *)
Module api.

Definition add_new_prompt (text : string) (tags : list string) (tool : string)
  : M database.PromptDB (option Z) :=
  services.add_prompt text tags tool.

Definition get_prompt_details (prompt_id : Z) : M database.PromptDB (option Prompt) :=
  services.get_prompt prompt_id.

Definition update_existing_prompt (prompt_id : Z) (text : string) (tags : list string)
    (tool : string) (is_favorite : bool) : M database.PromptDB bool :=
  services.update_prompt prompt_id text tags tool is_favorite.

Definition delete_existing_prompt (prompt_id : Z) : M database.PromptDB bool :=
  services.delete_prompt prompt_id.

Definition get_all_prompts_api : M database.PromptDB (list Prompt) :=
  services.list_all_prompts.

Definition search_and_filter_prompts_api (keyword : option string)
    (is_favorite : option bool) : M database.PromptDB (list Prompt) :=
  services.search_and_filter_prompts keyword is_favorite.

Definition toggle_favorite_api (prompt_id : Z) : M database.PromptDB (option bool) :=
  services.toggle_favorite_status prompt_id.

End api.

(* ===================================================================== *)
(** ** More Python built-ins, used by main.py *)
(* ===================================================================== *)

Module builtins.

(** [s.lower()] on code points below 256: the ASCII capitals and the
    Latin-1 capitals (all of U+00C0..U+00DE but the multiplication sign). *)
Definition lower_char (c : ascii) : ascii :=
  let n := N_of_ascii c in
  if (((65 <=? n) && (n <=? 90))
      || ((192 <=? n) && (n <=? 222) && negb (n =? 215)))%N
  then ascii_of_N (n + 32) else c.

Fixpoint lower (s : string) : string :=
  match s with
  | EmptyString => EmptyString
  | String c s' => String (lower_char c) (lower s')
  end.

Definition digit_value (c : ascii) : option Z :=
  let n := N_of_ascii c in
  if ((48 <=? n) && (n <=? 57))%N then Some (Z.of_N (n - 48)) else None.

(** The digits of a decimal literal, single underscores allowed between
    two digits: the value read so far, whether the previous character was
    an underscore, and the number of digits read. *)
Fixpoint digits (acc : Z) (after_underscore : bool) (count : nat) (s : string)
  : option (Z * nat) :=
  match s with
  | EmptyString => if after_underscore then None else Some (acc, count)
  | String c s' =>
      if Ascii.eqb c "_" then
        if after_underscore then None else digits acc true count s'
      else
        match digit_value c with
        | Some d => digits (10 * acc + d) false (S count) s'
        | None => None
        end
  end.

(** The whitespace that [int] accepts around a literal (code points below
    256): TAB..CR and SPACE, and NEL and NBSP, which [int] reads as a
    blank.  The separators FS..US are whitespace for [str.strip] but not
    here: [int] takes them for characters of the literal and refuses it. *)
Definition int_space (c : ascii) : bool :=
  let n := N_of_ascii c in
  (((9 <=? n) && (n <=? 13)) || (n =? 32) || (n =? 133) || (n =? 160))%N.

Fixpoint skip_leading (s : string) : string :=
  match s with
  | EmptyString => EmptyString
  | String c s' => if int_space c then skip_leading s' else s
  end.

Fixpoint skip_trailing (s : string) : string :=
  match s with
  | EmptyString => EmptyString
  | String c s' =>
      match skip_trailing s' with
      | EmptyString => if int_space c then EmptyString else String c EmptyString
      | r => String c r
      end
  end.

(** [int(s)] for a string: the whitespace around the literal is skipped,
    one sign is allowed, then decimal digits; [None] stands for
    [ValueError].  The interpreter refuses literals of more than 4300
    digits. *)
Definition int (s : string) : option Z :=
  let t := skip_trailing (skip_leading s) in
  let negative := match t with
                  | String c _ => Ascii.eqb c "-"
                  | EmptyString => false
                  end in
  let body := match t with
              | String c r => if Ascii.eqb c "+" || Ascii.eqb c "-" then r else t
              | EmptyString => t
              end in
  match body with
  | EmptyString => None
  | String c _ =>
      if Ascii.eqb c "_" then None
      else match digits 0 false 0 body with
           | Some (n, count) =>
               if (4300 <? count)%nat then None
               else Some (if negative then (- n)%Z else n)
           | None => None
           end
  end.

(** Truth value of an [Optional[int]]: [None] and [0] are false. *)
Definition truthy_id (v : option Z) : bool :=
  match v with
  | Some n => negb (n =? 0)%Z
  | None => false
  end.

End builtins.

(* ===================================================================== *)
(** ** main.py *)
(* ===================================================================== *)

Module main.

(** The attributes of [Messages] that the console prints. *)
Inductive Message : Type :=
| WELCOME | MENU | PROMPT_ADDED | PROMPT_NOT_FOUND | PROMPT_UPDATED
| PROMPT_DELETED | NO_PROMPTS | SEARCH_PROMPT | FAVORITE_TOGGLED
| INVALID_CHOICE | EXIT.

Inductive Arg : Type :=
| IntArg (n : Z)
| StrArg (s : string).

(** A piece of text on the terminal: a literal built from string fields,
    the line [f"ID: {prompt.id}"], or a configured message with the
    arguments of its [format] call. *)
Inductive Shown : Type :=
| Text (s : string)
| IdLine (v : option Z)
| Configured (m : Message) (args : list Arg).

(** What the console does to the terminal: [clear_screen], [print], and
    the prompt of an [input]. *)
Inductive Output : Type :=
| Cleared
| Printed (x : Shown)
| Asked (x : Shown).

(** The exceptions a [format] call raises. *)
Inductive PyError : Type :=
| AttributeError | IndexError | KeyError | ValueError | TypeError.

(** A configured string, seen through its method [format]: [None] when
    the call returns the text, the exception it raises otherwise (a
    replacement field for an argument that is not passed gives
    [IndexError] or [KeyError], an unbalanced brace [ValueError]). *)
Definition Template : Type := list Arg -> option PyError.

(** Why a method of the console does not return: an error of the driver
    that left the storage layer, [EOFError] from [input], [sys.exit], an
    exception of a [format] call (main.py catches none of them), or the
    bound on the iterations of [run] in this model. *)
Inductive Stop : Type :=
| DriverFailure (e : exn)
| EOFError
| SystemExit (code : Z)
| Uncaught (e : PyError)
| Unfinished.

Inductive Answer (A : Type) : Type :=
| Done (a : A)
| Stopped (why : Stop).
Arguments Done {A} a.
Arguments Stopped {A} why.

(** The console with its terminal: the lines still to be typed, what was
    shown so far (oldest first), and the storage object behind
    [self.api.service.db].  [stdout] holds what main.py shows, and the
    line [PromptDB.close] prints on the way out. *)
Record ConsoleApp : Type := mkConsole {
  stdin : list string;
  stdout : list Output;
  db : database.PromptDB
}.

Definition IO (A : Type) : Type := ConsoleApp -> ConsoleApp * Answer A.

Definition pure {A} (a : A) : IO A := fun s => (s, Done a).

Definition and_then {A B} (m : IO A) (k : A -> IO B) : IO B :=
  fun s =>
    match m s with
    | (s', Done a) => k a s'
    | (s', Stopped why) => (s', Stopped why)
    end.

Notation "x <~ m ;; k" := (and_then m (fun x => k))
  (at level 61, m at next level, right associativity).

Definition emit (o : Output) : IO unit :=
  fun s => (mkConsole (stdin s) (stdout s ++ [o]) (db s), Done tt).

(** [print(x)] *)
Definition print (x : Shown) : IO unit := emit (Printed x).

(** [input(prompt)] *)
Definition input (prompt : Shown) : IO string :=
  fun s =>
    match stdin s with
    | [] => (mkConsole [] (stdout s ++ [Asked prompt]) (db s), Stopped EOFError)
    | line :: rest => (mkConsole rest (stdout s ++ [Asked prompt]) (db s), Done line)
    end.

(** A call into the facade.  The lines the storage layer prints itself,
    when it has no connection or has caught an error of the driver, are
    not recorded in [stdout]. *)
Definition call {A} (m : M database.PromptDB A) : IO A :=
  fun s =>
    match m (db s) with
    | (db', Ret a) => (mkConsole (stdin s) (stdout s) db', Done a)
    | (db', Raise e) => (mkConsole (stdin s) (stdout s) db', Stopped (DriverFailure e))
    end.

Definition nl : string := String "010" EmptyString.

Definition press_enter : IO string := input (Text (nl ++ "Press Enter to continue...")).

(** [clear_screen] *)
Definition clear_screen : IO unit := emit Cleared.

Section Configuration.

(** The class [Messages] of config.py: every attribute is the value of
    [os.getenv], the configured string, or [None] when its variable is not
    set. *)
Variable Messages : Message -> option Template.

(** [Messages.m.format(args)]: [None] has no method [format]. *)
Definition format (m : Message) (args : list Arg) : option PyError :=
  match Messages m with
  | None => Some AttributeError
  | Some template => template args
  end.

(** [print(Messages.m.format(args))] *)
Definition print_format (m : Message) (args : list Arg) : IO unit :=
  match format m args with
  | None => print (Configured m args)
  | Some e => fun s => (s, Stopped (Uncaught e))
  end.

(** [display_prompt] *)
Definition display_prompt (prompt : Prompt) : IO unit :=
  let fav_status := if is_favorite prompt then "Yes" else "No" in
  _ <~ print (IdLine (id prompt)) ;;
  _ <~ print (Text ("Text: " ++ text prompt)) ;;
  _ <~ print (Text ("Tags: " ++ py.join ", " (tags prompt))) ;;
  _ <~ print (Text ("Tool: " ++ tool prompt)) ;;
  _ <~ print (Text ("Favorite: " ++ fav_status)) ;;
  print (Text "------------------------------").

(** [for prompt in prompts: self.display_prompt(prompt)] *)
Fixpoint display_all (prompts : list Prompt) : IO unit :=
  match prompts with
  | [] => pure tt
  | prompt :: rest => _ <~ display_prompt prompt ;; display_all rest
  end.

(** [add_prompt] *)
Definition add_prompt : IO unit :=
  _ <~ clear_screen ;;
  _ <~ print (Text (nl ++ "--- Add New Prompt ---")) ;;
  text <~ input (Text "Enter prompt text: ") ;;
  tags_input <~ input (Text "Enter tags (comma-separated, e.g., 'marketing, social media'): ") ;;
  let tags := strip_pieces tags_input in
  tool <~ input (Text "Enter associated tool (e.g., 'Gemini API', 'DALL-E'): ") ;;
  prompt_id <~ call (api.add_new_prompt text tags tool) ;;
  _ <~ (if builtins.truthy_id prompt_id
        then print_format PROMPT_ADDED
               match prompt_id with Some n => [IntArg n] | None => [] end
        else print (Text "Failed to add prompt.")) ;;
  _ <~ press_enter ;;
  pure tt.

(** [view_all_prompts] *)
Definition view_all_prompts : IO unit :=
  _ <~ clear_screen ;;
  _ <~ print (Text (nl ++ "--- All Prompts ---")) ;;
  prompts <~ call api.get_all_prompts_api ;;
  _ <~ (match prompts with
        | [] => print (Configured NO_PROMPTS [])
        | _ :: _ => display_all prompts
        end) ;;
  _ <~ press_enter ;;
  pure tt.

(** The favourite filter read from the answer to
    [Filter by favorite status? (yes/no/all)]. *)
Definition favorite_filter (answer : string) : option bool :=
  let filter_fav_input := py.strip (builtins.lower answer) in
  if String.eqb filter_fav_input "yes" then Some true
  else if String.eqb filter_fav_input "no" then Some false
  else None.

(** [search_prompts] *)
Definition search_prompts : IO unit :=
  _ <~ clear_screen ;;
  _ <~ print (Text (nl ++ "--- Search Prompts ---")) ;;
  keyword <~ input (Configured SEARCH_PROMPT []) ;;
  answer <~ input (Text "Filter by favorite status? (yes/no/all): ") ;;
  let is_favorite_filter := favorite_filter answer in
  prompts <~ call (api.search_and_filter_prompts_api (Some keyword) is_favorite_filter) ;;
  _ <~ (match prompts with
        | [] => print (Text "No prompts found matching your criteria.")
        | _ :: _ =>
            _ <~ print (Text (nl ++ "--- Search Results ---")) ;;
            display_all prompts
        end) ;;
  _ <~ press_enter ;;
  pure tt.

(** [edit_prompt] *)
Definition edit_prompt : IO unit :=
  _ <~ clear_screen ;;
  _ <~ print (Text (nl ++ "--- Edit Prompt ---")) ;;
  answer <~ input (Text "Enter ID of prompt to edit: ") ;;
  match builtins.int answer with
  | None =>
      _ <~ print (Text "Invalid ID. Please enter a number.") ;;
      _ <~ press_enter ;;
      pure tt
  | Some prompt_id =>
      found <~ call (api.get_prompt_details prompt_id) ;;
      match found with
      | None =>
          _ <~ print_format PROMPT_NOT_FOUND [IntArg prompt_id] ;;
          _ <~ press_enter ;;
          pure tt
      | Some prompt =>
          _ <~ print (Text (nl ++ "--- Current Prompt Details ---")) ;;
          _ <~ display_prompt prompt ;;
          _ <~ print (Text (nl ++ "Enter new values (leave blank to keep current value):")) ;;
          new_text <~ input (Text ("New text (current: '" ++ text prompt ++ "'): ")) ;;
          new_tags_input <~
            input (Text ("New tags (current: '" ++ py.join ", " (tags prompt) ++ "'): ")) ;;
          new_tool <~ input (Text ("New tool (current: '" ++ tool prompt ++ "'): ")) ;;
          favorite_answer <~
            input (Text ("New favorite status (current: "
                         ++ (if is_favorite prompt then "yes" else "no")
                         ++ ") (yes/no): ")) ;;
          let new_favorite_input := py.strip (builtins.lower favorite_answer) in
          let text := if py.truthy new_text then new_text else text prompt in
          let tags := if py.truthy new_tags_input then strip_pieces new_tags_input
                      else tags prompt in
          let tool := if py.truthy new_tool then new_tool else tool prompt in
          let is_favorite :=
            if String.eqb new_favorite_input "yes" then true
            else if String.eqb new_favorite_input "no" then false
            else is_favorite prompt in
          ok <~ call (api.update_existing_prompt prompt_id text tags tool is_favorite) ;;
          _ <~ (if ok then print_format PROMPT_UPDATED [IntArg prompt_id]
                else print (Text "Failed to update prompt.")) ;;
          _ <~ press_enter ;;
          pure tt
      end
  end.

(** [toggle_favorite_status] *)
Definition toggle_favorite_status : IO unit :=
  _ <~ clear_screen ;;
  _ <~ print (Text (nl ++ "--- Toggle Favorite Status ---")) ;;
  answer <~ input (Text "Enter ID of prompt to toggle favorite status: ") ;;
  match builtins.int answer with
  | None =>
      _ <~ print (Text "Invalid ID. Please enter a number.") ;;
      _ <~ press_enter ;;
      pure tt
  | Some prompt_id =>
      new_status <~ call (api.toggle_favorite_api prompt_id) ;;
      _ <~ (match new_status with
            | Some status =>
                let status_text := if status then "favorited" else "unfavorited" in
                print_format FAVORITE_TOGGLED [IntArg prompt_id; StrArg status_text]
            | None => print_format PROMPT_NOT_FOUND [IntArg prompt_id]
            end) ;;
      _ <~ press_enter ;;
      pure tt
  end.

(** [delete_prompt] *)
Definition delete_prompt : IO unit :=
  _ <~ clear_screen ;;
  _ <~ print (Text (nl ++ "--- Delete Prompt ---")) ;;
  answer <~ input (Text "Enter ID of prompt to delete: ") ;;
  match builtins.int answer with
  | None =>
      _ <~ print (Text "Invalid ID. Please enter a number.") ;;
      _ <~ press_enter ;;
      pure tt
  | Some prompt_id =>
      deleted <~ call (api.delete_existing_prompt prompt_id) ;;
      _ <~ (if deleted then print_format PROMPT_DELETED [IntArg prompt_id]
            else print_format PROMPT_NOT_FOUND [IntArg prompt_id]) ;;
      _ <~ press_enter ;;
      pure tt
  end.

(** [PromptDB.close], as [run] calls it on its way out: [is_connected] is
    a call into the driver that answers [False] when the call fails, and
    closing itself raises nothing. *)
Definition close : IO unit :=
  fun s =>
    match database.connection (db s) with
    | None => (s, Done tt)
    | Some conn =>
        match driver_call conn with
        | (conn', Ret _) =>
            (mkConsole (stdin s)
                       (stdout s ++ [Printed (Text "MySQL connection closed.")])
                       (database.mkPromptDB (Some conn')), Done tt)
        | (conn', Raise _) =>
            (mkConsole (stdin s) (stdout s) (database.mkPromptDB (Some conn')), Done tt)
        end
    end.

(** [sys.exit(code)] *)
Definition sys_exit (code : Z) : IO unit := fun s => (s, Stopped (SystemExit code)).

(** One turn of the [while True] loop of [run]. *)
Definition turn : IO unit :=
  _ <~ clear_screen ;;
  _ <~ print (Configured MENU []) ;;
  line <~ input (Text "") ;;
  let choice := py.strip line in
  if String.eqb choice "1" then add_prompt
  else if String.eqb choice "2" then view_all_prompts
  else if String.eqb choice "3" then search_prompts
  else if String.eqb choice "4" then edit_prompt
  else if String.eqb choice "5" then toggle_favorite_status
  else if String.eqb choice "6" then delete_prompt
  else if String.eqb choice "7" then
    _ <~ print (Configured EXIT []) ;;
    _ <~ close ;;
    sys_exit 0
  else
    _ <~ print (Configured INVALID_CHOICE []) ;;
    _ <~ press_enter ;;
    pure tt.

(** The loop, cut after [turns] iterations. *)
Fixpoint loop (turns : nat) : IO unit :=
  match turns with
  | O => fun s => (s, Stopped Unfinished)
  | S n => _ <~ turn ;; loop n
  end.

(** [run] *)
Definition run (turns : nat) : IO unit :=
  _ <~ clear_screen ;;
  _ <~ print (Configured WELCOME []) ;;
  loop turns.

End Configuration.

End main.

(* ===================================================================== *)
(** ** Vocabulary of the properties *)
(* ===================================================================== *)

(** A string that begins, respectively ends, with a whitespace character. *)
Definition starts_with_space (s : string) : bool :=
  match s with
  | EmptyString => false
  | String c _ => py.is_space c
  end.

Fixpoint ends_with_space (s : string) : bool :=
  match s with
  | EmptyString => false
  | String c s' =>
      match s' with
      | EmptyString => py.is_space c
      | String _ _ => ends_with_space s'
      end
  end.

(** No leading and no trailing whitespace. *)
Definition trimmed (s : string) : Prop :=
  starts_with_space s = false /\ ends_with_space s = false.

(** No occurrence of the delimiter. *)
Definition comma_free (s : string) : Prop := py.contains comma s = false.

(** The tags that the storage format keeps as they are. *)
Definition clean_tag (t : string) : Prop :=
  t <> EmptyString /\ comma_free t /\ trimmed t.

(** Serialising the tags as [to_dict] and [insert_prompt] do, and parsing
    a stored string as [from_dict] does. *)
Definition joinTags (tags : list string) : string := py.join "," tags.
Definition parseTags (stored : string) : list string := tags_of (Some stored).

(** An entity that came out of [from_dict]. *)
Definition parsed (p : Prompt) : Prop := exists data, p = from_dict data.

(** The entity a read builds from a stored row. *)
Definition row_prompt (r : Row) : Prompt := from_dict (as_dict r).

(** [kw] occurs in [s] at the front, respectively somewhere, when
    characters are compared as the collation compares them. *)
Fixpoint ci_prefix (kw s : string) : bool :=
  match kw with
  | EmptyString => true
  | String a kw' =>
      match s with
      | EmptyString => false
      | String b s' => coll_eqb a b && ci_prefix kw' s'
      end
  end.

Fixpoint ci_substring (kw s : string) : bool :=
  ci_prefix kw s
  || match s with
     | EmptyString => false
     | String _ s' => ci_substring kw s'
     end.

(** The rows a keyword search is meant to return. *)
Definition keyword_hit (kw : string) (r : Row) : bool :=
  ci_substring kw (row_text r) || ci_substring kw (row_tags r)
  || ci_substring kw (row_tool r).

(** Text of printable ASCII characters (SPACE to the tilde), and a row
    whose three searched columns hold such text. *)
Definition printable (c : ascii) : bool :=
  let n := N_of_ascii c in ((32 <=? n) && (n <=? 126))%N.

Fixpoint ascii_text (s : string) : bool :=
  match s with
  | EmptyString => true
  | String c s' => printable c && ascii_text s'
  end.

Definition ascii_row (r : Row) : bool :=
  ascii_text (row_text r) && ascii_text (row_tags r) && ascii_text (row_tool r).

(** A keyword without the characters that LIKE reads as operators. *)
Definition plain_keyword (kw : string) : Prop :=
  py.contains "%" kw = false /\ py.contains "_" kw = false
  /\ py.contains "\" kw = false.

(** States of a connection between two calls of the storage layer. *)
Definition settled (c : Conn) : Prop := working c = committed c.

Definition fresh_ids (c : Conn) : Prop :=
  Forall (fun r => (row_id r < next_id c)%Z) (working c).

Definition wf (c : Conn) : Prop := settled c /\ fresh_ids c.

(** Two connection states that differ at most in the schedule of faults. *)
Definition same_table (c c' : Conn) : Prop :=
  committed c' = committed c /\ working c' = working c
  /\ next_id c' = next_id c /\ found_rows c' = found_rows c.

(** No driver fault is pending. *)
Definition healthy (c : Conn) : Prop := faults c = [].

(** No stored row carries the id [k]. *)
Definition no_row (k : Z) (c : Conn) : Prop :=
  Forall (fun r => row_id r <> k) (working c).

(** What [search_and_filter_prompts] keeps of the rows it starts from. *)
Definition restrict (wanted : option bool) (prompts : list Prompt) : list Prompt :=
  match wanted with
  | Some b => filter (fun p => Bool.eqb (is_favorite p) b) prompts
  | None => prompts
  end.

(** A storage object over an open connection. *)
Definition opened (c : Conn) : database.PromptDB := database.mkPromptDB (Some c).

(** The outcome of the storage call that [search_and_filter_prompts] starts
    from, with the favourite filter applied to what it returned. *)
Definition then_restrict (wanted : option bool)
    (r : database.PromptDB * outcome (list Prompt))
  : database.PromptDB * outcome (list Prompt) :=
  match r with
  | (self', Ret prompts) => (self', Ret (restrict wanted prompts))
  | (self', Raise e) => (self', Raise e)
  end.

(** A console in front of the storage object [store], with the lines
    still to be typed and what was shown so far. *)
Definition console (lines : list string) (shown : list main.Output)
    (store : database.PromptDB) : main.ConsoleApp :=
  main.mkConsole lines shown store.

(** The last question of every menu entry. *)
Definition asked_enter : main.Output :=
  main.Asked (main.Text (main.nl ++ "Press Enter to continue...")).

(** The ways the program itself can stop: [sys.exit(0)], [EOFError] at an
    [input], an error of the driver that left the storage layer, or the
    exception that a [format] call raises under the configuration. *)
Definition expected (Messages : main.Message -> option main.Template)
    (why : main.Stop) : Prop :=
  why = main.SystemExit 0 \/ why = main.EOFError
  \/ (exists e, why = main.DriverFailure e)
  \/ (exists m args e, main.format Messages m args = Some e /\ why = main.Uncaught e).

(** A method of the console that types no line back and stops only in
    one of these ways. *)
Definition tame (Messages : main.Message -> option main.Template) {A}
    (m : main.IO A) : Prop :=
  forall s s' r, m s = (s', r) ->
    (List.length (main.stdin s') <= List.length (main.stdin s))%nat
    /\ (forall why, r = main.Stopped why -> expected Messages why).

(** The end of a menu entry that reports through
    [print(Messages.m.format(args))] and then asks for Enter: either the
    message is shown, the line [enter] is read and the entry returns, or
    [format] raises and the entry stops on that exception with [enter]
    not read. *)
Definition reports (Messages : main.Message -> option main.Template)
    (m : main.Message) (args : list main.Arg) (enter : string) (rest : list string)
    (s1 : main.ConsoleApp) (r : main.Answer unit) : Prop :=
  match main.format Messages m args with
  | None =>
      r = main.Done tt /\ main.stdin s1 = rest
      /\ exists pre,
           main.stdout s1
           = (pre ++ [main.Printed (main.Configured m args); asked_enter])%list
  | Some e => r = main.Stopped (main.Uncaught e) /\ main.stdin s1 = enter :: rest
  end.


(** *** Sample data *)

(** Four stored rows: two mention the keyword [gpt], one of them is a
    favourite. *)
Definition sample_rows : list Row :=
  [ mkRow 1 "Summarise with GPT-4" " summary , ,notes " "OpenAI" true;
    mkRow 2 "Draw a castle" "art" "chatgpt" false;
    mkRow 3 "Translate to French" "lang" "DeepL" true;
    mkRow 4 "abc" "abc,so-and-so" "" false ].

(** A connection on these rows with the given schedule of driver faults. *)
Definition sample_conn (fl : list bool) : Conn :=
  mkConn sample_rows sample_rows 5 false fl.

(** An entity as [add_prompt] builds it. *)
Definition sample_prompt : Prompt :=
  mkPrompt None "Explain recursion" ["teaching"; "cs"] "Gemini API" false.

(** Two configurations: every message set to a string that [format]
    accepts with any arguments (a text without braces, say), and no
    variable set at all. *)
Definition sample_messages : main.Message -> option main.Template :=
  fun _ => Some (fun _ => None).

Definition unset_messages : main.Message -> option main.Template :=
  fun _ => None.

(* ===================================================================== *)
(** ** Proof tools *)
(* ===================================================================== *)

(** Case analysis on the next four driver calls of a schedule. *)
Ltac faults_cases fl :=
  destruct fl as [|[] [|[] [|[] [|[] fl]]]].

(** Runs a storage or service method on an explicit connection state,
    leaving the table operations folded. *)
Ltac db_compute :=
  cbv beta iota zeta delta
    [opened database.on bind try_except ret cursor execute commit rollback
     driver_call run set_working faults working committed next_id found_rows
     database.connection fetchone fetchall result rowcount lastrowid
     database.create_table database.insert_prompt database.get_prompt_by_id
     database.update_prompt database.delete_prompt database.get_all_prompts
     database.search_prompts
     services.add_prompt services.get_prompt services.update_prompt
     services.delete_prompt services.list_all_prompts
     services.search_and_filter_prompts services.toggle_favorite_status].

(** Runs the console up to its next call into the facade. *)
Ltac io_compute :=
  cbv beta iota zeta delta
    [main.and_then main.pure main.emit main.print main.print_format main.input
     main.call main.press_enter main.clear_screen main.sys_exit main.close
     main.stdin main.stdout main.db
     main.display_prompt main.add_prompt main.view_all_prompts main.search_prompts
     main.edit_prompt main.toggle_favorite_status main.delete_prompt main.turn
     api.add_new_prompt api.get_prompt_details api.update_existing_prompt
     api.delete_existing_prompt api.get_all_prompts_api
     api.search_and_filter_prompts_api api.toggle_favorite_api].

(* ===================================================================== *)
(** ** Strings: strip, split and join *)
(* ===================================================================== *)

Section StringFacts.

Lemma lstrip_fixed s : starts_with_space s = false -> py.lstrip s = s.
Proof.
  destruct s as [|c s]; simpl; [reflexivity|].
  intros ->. reflexivity.
Qed.

Lemma rstrip_fixed s : ends_with_space s = false -> py.rstrip s = s.
Proof.
  induction s as [|c s IH]; [reflexivity|].
  destruct s as [|d s].
  - simpl. intros ->. reflexivity.
  - intros H. change (ends_with_space (String d s) = false) in H.
    change (py.rstrip (String c (String d s)))
      with (match py.rstrip (String d s) with
            | EmptyString => if py.is_space c then EmptyString else String c EmptyString
            | r => String c r
            end).
    rewrite (IH H). reflexivity.
Qed.

Lemma strip_fixed s : trimmed s -> py.strip s = s.
Proof.
  intros [Hl Hr]. unfold py.strip.
  rewrite (lstrip_fixed _ Hl). apply rstrip_fixed, Hr.
Qed.

Lemma lstrip_no_lead s : starts_with_space (py.lstrip s) = false.
Proof.
  induction s as [|c s IH]; [reflexivity|].
  simpl. destruct (py.is_space c) eqn:E; [exact IH|]. simpl. exact E.
Qed.

Lemma rstrip_keeps_lead s :
  starts_with_space s = false -> starts_with_space (py.rstrip s) = false.
Proof.
  destruct s as [|c s]; [reflexivity|].
  simpl. intros E. destruct (py.rstrip s); [rewrite E|]; simpl; assumption.
Qed.

Lemma rstrip_no_trail s : ends_with_space (py.rstrip s) = false.
Proof.
  induction s as [|c s IH]; [reflexivity|].
  simpl. destruct (py.rstrip s) as [|d r] eqn:E.
  - destruct (py.is_space c) eqn:Ec; simpl; [reflexivity | exact Ec].
  - exact IH.
Qed.

Lemma strip_trimmed s : trimmed (py.strip s).
Proof.
  split.
  - apply rstrip_keeps_lead, lstrip_no_lead.
  - apply rstrip_no_trail.
Qed.

Lemma truthy_true s : py.truthy s = true <-> s <> EmptyString.
Proof.
  destruct s; simpl; split; congruence.
Qed.

Lemma split_not_nil sep s : py.split sep s <> [].
Proof.
  destruct s as [|c s]; simpl; [discriminate|].
  destruct (Ascii.eqb c sep); [discriminate|].
  destruct (py.split sep s); discriminate.
Qed.

Lemma split_one s : comma_free s -> py.split comma s = [s].
Proof.
  unfold comma_free.
  induction s as [|c s IH]; simpl; [reflexivity|].
  intros H. apply orb_false_iff in H. destruct H as [Hc Hs].
  rewrite Hc, (IH Hs). reflexivity.
Qed.

Lemma split_app x r :
  comma_free x -> py.split comma (x ++ String comma r) = x :: py.split comma r.
Proof.
  unfold comma_free.
  induction x as [|c x IH]; simpl.
  - intros _. reflexivity.
  - intros H. apply orb_false_iff in H. destruct H as [Hc Hx].
    rewrite Hc, (IH Hx). reflexivity.
Qed.

(** Splitting undoes joining: every element of a non-empty list of
    comma-free strings comes back, empty strings and repetitions too. *)
Lemma split_join l :
  l <> [] -> Forall comma_free l -> py.split comma (py.join "," l) = l.
Proof.
  induction l as [|x l IH]; [congruence|].
  intros _ H. inversion H as [|? ? Hx Hl]; subst.
  destruct l as [|y l].
  - simpl. apply split_one, Hx.
  - change (py.join "," (x :: y :: l)) with (x ++ String comma (py.join "," (y :: l))).
    rewrite (split_app _ _ Hx), IH; [reflexivity | discriminate | exact Hl].
Qed.

Lemma join_truthy x l : x <> EmptyString -> py.truthy (py.join "," (x :: l)) = true.
Proof.
  destruct x as [|c x]; [congruence|].
  intros _. destruct l; reflexivity.
Qed.

Lemma strip_pieces_spec s t :
  In t (strip_pieces s) <->
  exists piece, In piece (py.split comma s) /\ py.strip piece = t /\ t <> EmptyString.
Proof.
  unfold strip_pieces. rewrite in_map_iff. split.
  - intros [piece [E Hin]]. apply filter_In in Hin. destruct Hin as [Hin Ht].
    exists piece. rewrite E in Ht. apply truthy_true in Ht. auto.
  - intros [piece [Hin [E Ht]]]. exists piece. split; [exact E|].
    apply filter_In. split; [exact Hin|]. rewrite E. apply truthy_true, Ht.
Qed.

Lemma tags_of_kept v :
  Forall (fun t => t <> EmptyString /\ trimmed t) (tags_of v).
Proof.
  apply Forall_forall. intros t Hin.
  destruct v as [s|]; simpl in Hin; [|contradiction].
  destruct (py.truthy s); [|contradiction].
  apply strip_pieces_spec in Hin. destruct Hin as [piece [_ [E Ht]]].
  split; [exact Ht|]. rewrite <- E. apply strip_trimmed.
Qed.

Lemma strip_pieces_clean l :
  Forall (fun t => t <> EmptyString /\ trimmed t) l ->
  map py.strip (filter (fun tag => py.truthy (py.strip tag)) l) = l.
Proof.
  induction 1 as [|t l [Hne Htr] _ IH]; [reflexivity|].
  simpl. rewrite (strip_fixed _ Htr).
  apply truthy_true in Hne. rewrite Hne. simpl.
  rewrite (strip_fixed _ Htr), IH. reflexivity.
Qed.

Lemma split_append x r :
  py.split comma (x ++ String comma r) = (py.split comma x ++ py.split comma r)%list.
Proof.
  induction x as [|c x IH]; [reflexivity|].
  cbn [String.append py.split]. rewrite IH.
  destruct (Ascii.eqb c comma); [reflexivity|].
  pose proof (split_not_nil comma x) as Hne.
  destruct (py.split comma x) as [|piece pieces]; [congruence | reflexivity].
Qed.

Lemma strip_pieces_append x r :
  strip_pieces (x ++ String comma r) = (strip_pieces x ++ strip_pieces r)%list.
Proof.
  unfold strip_pieces. rewrite split_append, filter_app, map_app. reflexivity.
Qed.

Lemma parse_is_strip_pieces s : parseTags s = strip_pieces s.
Proof.
  destruct s; reflexivity.
Qed.

(** Parsing a joined list parses every element on its own and keeps what
    each one gives, in order. *)
Lemma parse_join_each l : parseTags (joinTags l) = flat_map parseTags l.
Proof.
  rewrite parse_is_strip_pieces.
  rewrite (flat_map_ext parseTags strip_pieces parse_is_strip_pieces).
  unfold joinTags. induction l as [|x l IH]; [reflexivity|].
  destruct l as [|y l].
  - cbn [py.join flat_map]. rewrite app_nil_r. reflexivity.
  - change (py.join "," (x :: y :: l)) with (x ++ String comma (py.join "," (y :: l))).
    rewrite strip_pieces_append, IH. reflexivity.
Qed.

Lemma parse_join_clean l : Forall clean_tag l -> parseTags (joinTags l) = l.
Proof.
  intros H. unfold parseTags, joinTags, tags_of.
  destruct l as [|x l]; [reflexivity|].
  assert (Hx : x <> EmptyString) by (inversion H as [|? ? [Hx _] _]; exact Hx).
  rewrite (join_truthy x l Hx). unfold strip_pieces.
  rewrite split_join.
  - apply strip_pieces_clean. eapply Forall_impl; [|exact H].
    intros t [Hne [_ Htr]]. auto.
  - discriminate.
  - eapply Forall_impl; [|exact H]. intros t [_ [Hc _]]. exact Hc.
Qed.

End StringFacts.
(* ===================================================================== *)
(** ** The storage layer on a connection *)
(* ===================================================================== *)

Import database.

Section TableFacts.

Lemma has_id_true k r : has_id k r = true <-> row_id r = k.
Proof. unfold has_id. apply Z.eqb_eq. Qed.

Lemma has_id_false k r : has_id k r = false <-> row_id r <> k.
Proof. unfold has_id. apply Z.eqb_neq. Qed.

Lemma no_row_filter k rows :
  Forall (fun r => row_id r <> k) rows -> filter (has_id k) rows = [].
Proof.
  induction 1 as [|r rows Hr _ IH]; [reflexivity|].
  simpl. apply has_id_false in Hr. rewrite Hr. exact IH.
Qed.

Lemma no_row_overwrite new rows :
  Forall (fun r => row_id r <> row_id new) rows -> overwrite new rows = rows.
Proof.
  induction 1 as [|r rows Hr _ IH]; [reflexivity|].
  unfold overwrite in *. simpl. apply has_id_false in Hr. rewrite Hr, IH. reflexivity.
Qed.



Lemma overwrite_last new rows r :
  Forall (fun r => row_id r <> row_id new) rows -> row_id r = row_id new ->
  overwrite new (rows ++ [r])%list = (rows ++ [new])%list.
Proof.
  intros H E. unfold overwrite. rewrite map_app.
  change (map _ rows) with (overwrite new rows).
  rewrite (no_row_overwrite _ _ H). simpl.
  apply has_id_true in E. rewrite E. reflexivity.
Qed.

Lemma row_eqb_eq a b : row_eqb a b = true <-> a = b.
Proof.
  unfold row_eqb. destruct a, b; simpl. split.
  - intros H. repeat (apply andb_true_iff in H; destruct H as [H ?]).
    apply Z.eqb_eq in H. repeat match goal with
      | E : String.eqb _ _ = true |- _ => apply String.eqb_eq in E
      | E : Bool.eqb _ _ = true |- _ => apply Bool.eqb_prop in E
      end. congruence.
  - intros E. inversion E; subst.
    rewrite Z.eqb_refl, !String.eqb_refl, Bool.eqb_reflx. reflexivity.
Qed.

End TableFacts.

Section Healthy.

Variable c : Conn.
Hypothesis Hc : healthy c.

Lemma get_healthy k :
  get_prompt_by_id k (opened c) =
    (opened c, Ret (option_map row_prompt (hd_error (filter (has_id k) (working c))))).
Proof.
  destruct c as [cm wk nid fr fl]. unfold healthy in Hc. simpl in Hc. subst fl.
  db_compute. destruct (filter (has_id k) wk); reflexivity.
Qed.


Lemma search_healthy kw :
  let term := "%" ++ kw ++ "%" in
  search_prompts kw (opened c) =
    (opened c,
     Ret (map row_prompt
            (filter (fun r => like term (row_text r) || like term (row_tags r)
                              || like term (row_tool r)) (working c)))).
Proof.
  destruct c as [cm wk nid fr fl]. unfold healthy in Hc. simpl in Hc. subst fl.
  db_compute. unfold row_prompt. rewrite map_map. reflexivity.
Qed.

Lemma insert_healthy p :
  insert_prompt p (opened c) =
    (let rows := (working c ++ [mkRow (next_id c) (text p) (joinTags (tags p))
                                          (tool p) (is_favorite p)])%list in
     opened (mkConn rows rows (next_id c + 1) (found_rows c) []),
     Ret (Some (next_id c))).
Proof.
  destruct c as [cm wk nid fr fl]. unfold healthy in Hc. simpl in Hc. subst fl.
  reflexivity.
Qed.

Lemma update_healthy p k :
  id p = Some k ->
  let new := mkRow k (text p) (joinTags (tags p)) (tool p) (is_favorite p) in
  let hit := filter (has_id k) (working c) in
  update_prompt p (opened c) =
    (let rows := overwrite new (working c) in
     opened (mkConn rows rows (next_id c) (found_rows c) []),
     Ret (0 <? Z.of_nat (List.length
            (if found_rows c then hit
             else filter (fun r => negb (row_eqb r new)) hit)))%Z).
Proof.
  destruct c as [cm wk nid fr fl]. unfold healthy in Hc. simpl in Hc. subst fl.
  intros E. db_compute. rewrite E. reflexivity.
Qed.

Lemma delete_healthy k :
  delete_prompt k (opened c) =
    (let rows := filter (fun r => negb (has_id k r)) (working c) in
     opened (mkConn rows rows (next_id c) (found_rows c) []),
     Ret (0 <? Z.of_nat (List.length (filter (has_id k) (working c))))%Z).
Proof.
  destruct c as [cm wk nid fr fl]. unfold healthy in Hc. simpl in Hc. subst fl.
  reflexivity.
Qed.

End Healthy.

(* ===================================================================== *)
(** ** Tags: serialising and parsing *)
(* ===================================================================== *)

(** C1, as stated, fails: a tag with a leading space is non-empty and
    comma-free, yet parsing strips it. *)
Lemma tag_roundtrip_leading_space :
  let p := mkPrompt None "t" [" a"] "" false in
  Forall (fun t => t <> EmptyString /\ comma_free t) (tags p)
  /\ tags (from_dict (to_dict p)) = ["a"]
  /\ tags (from_dict (to_dict p)) <> tags p.
Proof.
  cbv zeta. split; [|split].
  - repeat constructor; discriminate.
  - reflexivity.
  - discriminate.
Qed.

(** C1 (amended): for every list of tags in which no element is empty, no
    element contains a comma and no element has leading or trailing
    whitespace, serialising as [to_dict] does and parsing as [from_dict]
    does yields the original list, in the original order. *)
Theorem tag_roundtrip (p : Prompt) :
  Forall clean_tag (tags p) ->
  tags (from_dict (to_dict p)) = tags p
  /\ parseTags (joinTags (tags p)) = tags p.
Proof.
  intros H. split; apply (parse_join_clean _ H).
Qed.

Lemma tag_roundtrip_witness :
  let p := mkPrompt None "t" ["marketing"; "social media"; "marketing"] "" false in
  Forall clean_tag (tags p) /\ tags (from_dict (to_dict p)) = tags p.
Proof.
  cbv zeta.
  assert (H : Forall clean_tag ["marketing"; "social media"; "marketing"]).
  { repeat constructor; discriminate. }
  split; [exact H|].
  exact (proj1 (tag_roundtrip (mkPrompt None "t" _ "" false) H)).
Defined.

(** C5, as stated, fails on the serialising side: joining keeps an empty
    tag as an empty entry between two delimiters. *)
Lemma join_keeps_empty_tag :
  let tags := ["a"; ""; "b"] in
  joinTags tags = "a,,b"
  /\ In EmptyString (py.split comma (joinTags tags))
  /\ joinTags tags <> joinTags (filter py.truthy tags).
Proof.
  cbv zeta. split; [reflexivity|]. split.
  - simpl. auto.
  - discriminate.
Qed.

(** C5 (amended): empty entries are dropped on deserialize only.
    Serialising joins every element of the list, empty strings and
    repetitions included (splitting the joined string of comma-free tags
    gives the list back); deserialising any stored string yields a list
    with no empty element.  Repetitions are kept in both directions, for
    every list: parsing the joined string gives what every element gives
    when parsed on its own, one after the other, so nothing is merged; and
    for every list of tags that are non-empty, comma-free and trimmed the
    list itself comes back, every tag as many times as it occurs. *)
Theorem empty_tags_dropped_on_parse (l : list string) (stored : option string)
    (t : string) :
  (l <> [] -> Forall comma_free l -> py.split comma (joinTags l) = l)
  /\ Forall (fun x => x <> EmptyString) (tags_of stored)
  /\ parseTags (joinTags l) = flat_map parseTags l
  /\ (Forall clean_tag l ->
      parseTags (joinTags l) = l
      /\ count_occ string_dec (parseTags (joinTags l)) t = count_occ string_dec l t).
Proof.
  split; [|split; [|split]].
  - apply split_join.
  - eapply Forall_impl; [|apply tags_of_kept]. intros x [Hx _]. exact Hx.
  - apply parse_join_each.
  - intros Hl. rewrite (parse_join_clean l Hl). split; reflexivity.
Qed.

Lemma empty_tags_dropped_on_parse_witness :
  py.split comma (joinTags ["a"; ""; "a"]) = ["a"; ""; "a"]
  /\ Forall (fun x => x <> EmptyString) (tags_of (Some "a,, ,a"))
  /\ parseTags (joinTags ["a"; "b c"; "a"; "d"; "a"]) = ["a"; "b c"; "a"; "d"; "a"]
  /\ count_occ string_dec (parseTags (joinTags ["a"; "b c"; "a"; "d"; "a"])) "a" = 3%nat.
Proof.
  pose proof (empty_tags_dropped_on_parse ["a"; ""; "a"] (Some "a,, ,a") "a")
    as [H1 [H2 _]].
  pose proof (empty_tags_dropped_on_parse ["a"; "b c"; "a"; "d"; "a"] None "a")
    as [_ [_ [_ H4]]].
  assert (Hclean : Forall clean_tag ["a"; "b c"; "a"; "d"; "a"]).
  { repeat (apply Forall_cons; [repeat split; discriminate|]). apply Forall_nil. }
  destruct (H4 Hclean) as [H5 H6].
  split; [|split; [|split]].
  - apply H1; [discriminate | repeat constructor].
  - exact H2.
  - exact H5.
  - rewrite H6. reflexivity.
Defined.

(* ===================================================================== *)
(** ** Reads build their entities with [from_dict] *)
(* ===================================================================== *)

Section Reads.

Import database.

Lemma map_parsed rows : Forall parsed (map from_dict rows).
Proof.
  apply Forall_forall. intros p Hin. apply in_map_iff in Hin.
  destruct Hin as [d [E _]]. exists d. auto.
Qed.

Lemma get_parsed k self self' p :
  get_prompt_by_id k self = (self', Ret (Some p)) -> parsed p.
Proof.
  destruct self as [[c|]]; [|discriminate].
  destruct c as [cm wk nid fr fl].
  faults_cases fl; db_compute; try discriminate;
    (destruct (filter (has_id k) wk) as [|r ?]; [discriminate|]);
    intros H; inversion H; subst; eexists; reflexivity.
Qed.

Lemma get_all_parsed self self' l :
  get_all_prompts self = (self', Ret l) -> Forall parsed l.
Proof.
  destruct self as [[c|]].
  - destruct c as [cm wk nid fr fl].
    faults_cases fl; db_compute; try discriminate;
      intros H; inversion H; subst; try constructor; apply map_parsed.
  - intros H. inversion H. constructor.
Qed.

Lemma search_parsed kw self self' l :
  search_prompts kw self = (self', Ret l) -> Forall parsed l.
Proof.
  destruct self as [[c|]].
  - destruct c as [cm wk nid fr fl].
    faults_cases fl; db_compute; try discriminate;
      intros H; inversion H; subst; try constructor; apply map_parsed.
  - intros H. inversion H. constructor.
Qed.

Lemma parsed_tags p : parsed p -> Forall (fun t => t <> EmptyString /\ trimmed t) (tags p).
Proof.
  intros [d ->]. apply tags_of_kept.
Qed.

End Reads.

(** C9: every Prompt returned by a read operation ([get_prompt_by_id],
    [get_all_prompts], [search_prompts]) has a tags list in which every
    element is non-empty and carries no leading or trailing whitespace. *)
Theorem reads_return_trimmed_tags (self self' : database.PromptDB) (p : Prompt) :
  (forall k, database.get_prompt_by_id k self = (self', Ret (Some p)) ->
             Forall (fun t => t <> EmptyString /\ trimmed t) (tags p))
  /\ (forall l, database.get_all_prompts self = (self', Ret l) -> In p l ->
                Forall (fun t => t <> EmptyString /\ trimmed t) (tags p))
  /\ (forall kw l, database.search_prompts kw self = (self', Ret l) -> In p l ->
                   Forall (fun t => t <> EmptyString /\ trimmed t) (tags p)).
Proof.
  split; [|split].
  - intros k H. eapply parsed_tags, get_parsed, H.
  - intros l H Hin. apply parsed_tags.
    eapply Forall_forall; [eapply get_all_parsed, H | exact Hin].
  - intros kw l H Hin. apply parsed_tags.
    eapply Forall_forall; [eapply search_parsed, H | exact Hin].
Qed.

Lemma reads_return_trimmed_tags_witness :
  let self := opened (sample_conn []) in
  let p := mkPrompt (Some 1%Z) "Summarise with GPT-4" ["summary"; "notes"] "OpenAI" true in
  database.get_prompt_by_id 1 self = (self, Ret (Some p))
  /\ In p (map row_prompt sample_rows)
  /\ Forall (fun t => t <> EmptyString /\ trimmed t) (tags p).
Proof.
  cbv zeta. split; [reflexivity|]. split; [left; reflexivity|].
  pose proof (reads_return_trimmed_tags (opened (sample_conn [])) (opened (sample_conn []))
                (mkPrompt (Some 1%Z) "Summarise with GPT-4" ["summary"; "notes"] "OpenAI" true))
    as [Hget [Hall Hsearch]].
  assert (H1 := Hget 1%Z eq_refl).
  assert (H2 := Hall (map row_prompt sample_rows) eq_refl (or_introl eq_refl)).
  assert (H3 := Hsearch "gpt" [row_prompt (mkRow 1 "Summarise with GPT-4" " summary , ,notes " "OpenAI" true);
                               row_prompt (mkRow 2 "Draw a castle" "art" "chatgpt" false)]
                        eq_refl (or_introl eq_refl)).
  exact H3.
Defined.

(* ===================================================================== *)
(** ** The guards of the storage layer *)
(* ===================================================================== *)

(** C10: for every entity whose id is absent, the storage update returns
    false at once: no driver call is made (the schedule of the connection
    is untouched) and the stored table is unchanged. *)
Theorem update_without_id (self : database.PromptDB) (prompt : Prompt) :
  id prompt = None -> database.update_prompt prompt self = (self, Ret false).
Proof.
  intros H. unfold database.update_prompt.
  destruct (database.connection self); [rewrite H|]; reflexivity.
Qed.

Lemma update_without_id_witness :
  database.update_prompt sample_prompt (opened (sample_conn [true]))
  = (opened (sample_conn [true]), Ret false).
Proof.
  apply (update_without_id (opened (sample_conn [true])) sample_prompt).
  reflexivity.
Defined.

(** With the handle unset every storage operation returns its failure
    value and leaves the object as it is: [None], [False] or the empty
    list, without a driver call. *)
Theorem unset_handle_short_circuits (self : database.PromptDB) :
  database.connection self = None ->
  database.create_table self = (self, Ret tt)
  /\ (forall p, database.insert_prompt p self = (self, Ret None))
  /\ (forall k, database.get_prompt_by_id k self = (self, Ret None))
  /\ (forall p, database.update_prompt p self = (self, Ret false))
  /\ (forall k, database.delete_prompt k self = (self, Ret false))
  /\ database.get_all_prompts self = (self, Ret [])
  /\ (forall kw, database.search_prompts kw self = (self, Ret [])).
Proof.
  intros H.
  unfold database.create_table, database.insert_prompt, database.get_prompt_by_id,
    database.update_prompt, database.delete_prompt, database.get_all_prompts,
    database.search_prompts.
  rewrite H. repeat split.
Qed.

Lemma unset_handle_short_circuits_witness :
  database.get_all_prompts (database.connect (Raise Error))
  = (database.mkPromptDB None, Ret []).
Proof.
  apply (unset_handle_short_circuits (database.connect (Raise Error)) eq_refl).
Defined.

(** C8 (the code departs from it): a driver error raised while the cursor
    is opened, or by the rollback inside a handler, is outside every
    [try] of the storage layer and reaches the caller, whatever the table
    holds. *)
Theorem driver_fault_escapes
    (cm wk : list Row) (nid : Z) (fr : bool) (fl : list bool)
    (p : Prompt) (k : Z) (kw : string) :
  let lost := opened (mkConn cm wk nid fr (true :: fl)) in
  let failing := opened (mkConn cm wk nid fr (false :: true :: true :: fl)) in
  let q := mkPrompt (Some k) (text p) (tags p) (tool p) (is_favorite p) in
  snd (database.create_table lost) = Raise Error
  /\ snd (database.insert_prompt p lost) = Raise Error
  /\ snd (database.get_prompt_by_id k lost) = Raise Error
  /\ snd (database.update_prompt q lost) = Raise Error
  /\ snd (database.delete_prompt k lost) = Raise Error
  /\ snd (database.get_all_prompts lost) = Raise Error
  /\ snd (database.search_prompts kw lost) = Raise Error
  /\ snd (database.insert_prompt p failing) = Raise Error
  /\ snd (database.update_prompt q failing) = Raise Error
  /\ snd (database.delete_prompt k failing) = Raise Error
  /\ snd (services.toggle_favorite_status k lost) = Raise Error
  /\ snd (database.get_all_prompts (opened (sample_conn [true]))) = Raise Error.
Proof.
  cbv zeta. repeat split.
Qed.

(* ===================================================================== *)
(** ** Search and favourite filter *)
(* ===================================================================== *)

Lemma restrict_spec wanted prompts p :
  In p (restrict wanted prompts) <->
  In p prompts /\ match wanted with
                  | Some b => is_favorite p = b
                  | None => True
                  end.
Proof.
  destruct wanted as [b|]; simpl.
  - rewrite filter_In. split.
    + intros [Hin E]. split; [exact Hin|]. apply Bool.eqb_prop, E.
    + intros [Hin E]. split; [exact Hin|]. rewrite E. apply Bool.eqb_reflx.
  - split; [intros H; split; [exact H | exact I] | intros [H _]; exact H].
Qed.

(** C2: [search_and_filter_prompts] returns the rows of [search_prompts]
    when the keyword is non-empty, and of [get_all_prompts] when it is
    empty or absent, restricted, when the favourite flag is present, to
    exactly the entities whose [is_favorite] equals the requested value;
    with the flag absent nothing is filtered. *)
Theorem search_and_filter_composition
    (keyword : option string) (wanted : option bool) (self : database.PromptDB) :
  services.search_and_filter_prompts keyword wanted self
  = then_restrict wanted
      (match keyword with
       | Some (String c kw) => database.search_prompts (String c kw) self
       | Some EmptyString => database.get_all_prompts self
       | None => database.get_all_prompts self
       end)
  /\ (forall prompts p,
        In p (restrict wanted prompts) <->
        In p prompts /\ match wanted with
                        | Some b => is_favorite p = b
                        | None => True
                        end)
  /\ (forall prompts, restrict None prompts = prompts).
Proof.
  split; [|split].
  - unfold services.search_and_filter_prompts, then_restrict, bind, restrict.
    destruct keyword as [[|c kw]|]; simpl;
      match goal with
      | |- context [match ?call self with _ => _ end] =>
          destruct (call self) as [self' [prompts|e]]
      end; destruct wanted; reflexivity.
  - intros prompts p. apply restrict_spec.
  - reflexivity.
Qed.

(** The seeded test of the filter: of four rows two match [gpt], one of
    them a favourite; asking for favourites returns that one. *)
Example search_gpt_favourites :
  snd (services.search_and_filter_prompts (Some "gpt") (Some true) (opened (sample_conn [])))
  = Ret [mkPrompt (Some 1%Z) "Summarise with GPT-4" ["summary"; "notes"] "OpenAI" true]
  /\ snd (services.search_and_filter_prompts (Some "gpt") None (opened (sample_conn [])))
     = Ret [row_prompt (mkRow 1 "Summarise with GPT-4" " summary , ,notes " "OpenAI" true);
            row_prompt (mkRow 2 "Draw a castle" "art" "chatgpt" false)]
  /\ snd (services.search_and_filter_prompts (Some "") (Some false) (opened (sample_conn [])))
     = Ret [row_prompt (mkRow 2 "Draw a castle" "art" "chatgpt" false);
            row_prompt (mkRow 4 "abc" "abc,so-and-so" "" false)].
Proof.
  repeat split.
Qed.

(* ===================================================================== *)
(** ** The storage layer under driver faults *)
(* ===================================================================== *)

Section Faulty.

Import database.

Lemma get_any c k self' r :
  get_prompt_by_id k (opened c) = (self', r) ->
  exists c', self' = opened c' /\ same_table c c'
    /\ (r = Raise Error \/ r = Ret None
        \/ r = Ret (option_map row_prompt (hd_error (filter (has_id k) (working c))))).
Proof.
  destruct c as [cm wk nid fr fl].
  faults_cases fl; db_compute; intros H; inversion H; subst; clear H;
    eexists; (split; [reflexivity|]); (split; [repeat split|]);
    first [ left; reflexivity
          | right; left; reflexivity
          | right; right; simpl; destruct (filter (has_id k) wk); reflexivity ].
Qed.



End Faulty.

(* ===================================================================== *)
(** ** Update *)
(* ===================================================================== *)

Section UpdateFacts.

Import database.

Lemma no_row_check k c :
  forallb (fun r => negb (has_id k r)) (working c) = true -> no_row k c.
Proof.
  unfold no_row. rewrite forallb_forall, Forall_forall.
  intros H r Hin. apply has_id_false. apply negb_true_iff. apply H, Hin.
Qed.

Lemma first_hit k rows :
  (exists row, In row rows /\ row_id row = k) ->
  exists row0 rest, filter (has_id k) rows = row0 :: rest /\ row_id row0 = k.
Proof.
  intros [row [Hin E]].
  assert (Hf : In row (filter (has_id k) rows)).
  { apply filter_In. split; [exact Hin | apply has_id_true, E]. }
  destruct (filter (has_id k) rows) as [|row0 rest] eqn:Ef; [contradiction|].
  exists row0, rest. split; [reflexivity|].
  assert (H0 : In row0 (filter (has_id k) rows)) by (rewrite Ef; left; reflexivity).
  apply filter_In in H0. apply has_id_true, H0.
Qed.

Lemma filter_overwrite k new rows :
  row_id new = k ->
  filter (has_id k) (overwrite new rows) = map (fun _ => new) (filter (has_id k) rows).
Proof.
  intros <-. induction rows as [|r rows IH]; [reflexivity|].
  unfold overwrite in *. simpl.
  destruct (has_id (row_id new) r) eqn:E; simpl.
  - assert (Hn : has_id (row_id new) new = true) by (apply has_id_true; reflexivity).
    rewrite Hn, IH. reflexivity.
  - rewrite E. exact IH.
Qed.

(** The service update on a healthy connection that stores the id. *)
Lemma service_update_present c k text tags tool fav :
  healthy c -> (exists row, In row (working c) /\ row_id row = k) ->
  let rows := overwrite (mkRow k text (joinTags tags) tool fav) (working c) in
  exists ok,
    services.update_prompt k text tags tool fav (opened c)
    = (opened (mkConn rows rows (next_id c) (found_rows c) []), Ret ok).
Proof.
  intros Hc Hrow. apply first_hit in Hrow. destruct Hrow as [row0 [rest [Ef E0]]].
  unfold services.update_prompt, bind.
  rewrite (get_healthy c Hc), Ef. simpl. subst k.
  rewrite (update_healthy c Hc (mkPrompt (Some (row_id row0)) text tags tool fav)
             (row_id row0) eq_refl).
  simpl. eexists. reflexivity.
Qed.


End UpdateFacts.



(* ===================================================================== *)
(** ** Toggle *)
(* ===================================================================== *)

Section ToggleFacts.

Import database.

(** The row a toggle writes over [row0]: the favourite flag negated, the
    tags parsed and joined again. *)
Lemma toggle_present c k row0 rest :
  healthy c -> filter (has_id k) (working c) = row0 :: rest ->
  let new := mkRow k (row_text row0) (joinTags (parseTags (row_tags row0)))
                   (row_tool row0) (negb (row_is_favorite row0)) in
  let rows := overwrite new (working c) in
  services.toggle_favorite_status k (opened c)
  = (opened (mkConn rows rows (next_id c) (found_rows c) []),
     Ret (Some (negb (row_is_favorite row0)))).
Proof.
  intros Hc Ef new rows.
  assert (E0 : row_id row0 = k).
  { assert (H0 : In row0 (filter (has_id k) (working c))) by (rewrite Ef; left; reflexivity).
    apply filter_In in H0. apply has_id_true, H0. }
  unfold services.toggle_favorite_status, bind.
  rewrite (get_healthy c Hc), Ef.
  cbn [option_map hd_error row_prompt from_dict as_dict id text tags tool is_favorite
       d_id d_text d_tags d_tool d_is_favorite].
  rewrite (update_healthy c Hc
             (mkPrompt (Some (row_id row0)) (row_text row0) (tags_of (Some (row_tags row0)))
                       (row_tool row0) (negb (row_is_favorite row0)))
             k (f_equal Some E0)).
  cbn [id text tags tool is_favorite]. rewrite Ef.
  change (mkRow k (row_text row0) (joinTags (tags_of (Some (row_tags row0))))
                (row_tool row0) (negb (row_is_favorite row0))) with new.
  fold rows.
  assert (Hneq : row_eqb row0 new = false).
  { unfold row_eqb, new. cbn [row_is_favorite].
    destruct (row_is_favorite row0); apply andb_false_r. }
  cbn [filter]. rewrite Hneq. cbn [negb].
  destruct (found_rows c); reflexivity.
Qed.


End ToggleFacts.



(* ===================================================================== *)
(** ** Insert, then get *)
(* ===================================================================== *)




(* ===================================================================== *)
(** ** Keyword search *)
(* ===================================================================== *)

Section LikeFacts.

Lemma like_percent p s :
  like (String "%" p) s
  = like p s || match s with
                | EmptyString => false
                | String _ s' => like (String "%" p) s'
                end.
Proof.
  destruct s; reflexivity.
Qed.

Lemma like_percent_only s : like "%" s = true.
Proof.
  induction s as [|c s IH]; [reflexivity|].
  rewrite like_percent. rewrite IH. apply orb_true_r.
Qed.

Lemma like_plain_char a p s :
  Ascii.eqb a "%" = false -> Ascii.eqb a "_" = false -> Ascii.eqb a "\" = false ->
  like (String a p) s
  = match s with
    | EmptyString => false
    | String b s' => coll_eqb a b && like p s'
    end.
Proof.
  intros H1 H2 H3. simpl. rewrite H1, H2, H3. destruct s; reflexivity.
Qed.

Lemma like_prefix kw s :
  plain_keyword kw -> like (kw ++ "%") s = ci_prefix kw s.
Proof.
  revert s. induction kw as [|a kw IH]; intros s Hp.
  - apply like_percent_only.
  - destruct Hp as [H1 [H2 H3]]. simpl in H1, H2, H3.
    apply orb_false_iff in H1. apply orb_false_iff in H2. apply orb_false_iff in H3.
    destruct H1 as [Ha1 Hk1]. destruct H2 as [Ha2 Hk2]. destruct H3 as [Ha3 Hk3].
    change (String a kw ++ "%") with (String a (kw ++ "%")).
    rewrite (like_plain_char _ _ _ Ha1 Ha2 Ha3).
    destruct s as [|b s]; [reflexivity|].
    simpl. rewrite IH; [reflexivity|]. repeat split; assumption.
Qed.

(** With a keyword free of LIKE operators the pattern [%keyword%] matches
    exactly the strings in which the keyword occurs. *)
Lemma like_substring kw s :
  plain_keyword kw -> like ("%" ++ kw ++ "%") s = ci_substring kw s.
Proof.
  intros Hp. change ("%" ++ kw ++ "%") with (String "%" (kw ++ "%")).
  induction s as [|b s IH].
  - rewrite like_percent, (like_prefix _ _ Hp). reflexivity.
  - rewrite like_percent, (like_prefix _ _ Hp), IH. reflexivity.
Qed.

End LikeFacts.

(** On a connection without pending faults, for rows and a keyword of
    printable ASCII text (where the collations a server installs by
    default compare as [coll_eqb] does), a keyword free of [%], [_] and
    backslash returns exactly the stored rows in which it occurs, without
    regard to the case of letters, in the text, in the raw comma-joined
    tags string or in the tool; in storage order. *)
Theorem search_plain_keyword (c : Conn) (kw : string) :
  healthy c -> plain_keyword kw ->
  ascii_text kw = true -> forallb ascii_row (working c) = true ->
  database.search_prompts kw (opened c)
  = (opened c, Ret (map row_prompt (filter (keyword_hit kw) (working c)))).
Proof.
  intros Hc Hp _ _. rewrite (search_healthy c Hc). cbv zeta.
  f_equal. f_equal. f_equal. apply filter_ext. intros r.
  unfold keyword_hit. rewrite !(like_substring _ _ Hp). reflexivity.
Qed.

Lemma search_plain_keyword_witness :
  database.search_prompts "c,SO" (opened (sample_conn []))
  = (opened (sample_conn []),
     Ret [mkPrompt (Some 4%Z) "abc" ["abc"; "so-and-so"] "" false]).
Proof.
  refine (eq_trans (search_plain_keyword (sample_conn []) "c,SO" eq_refl _ eq_refl eq_refl)
                   _).
  - repeat split.
  - reflexivity.
Defined.

(** C7 (the code departs from it): the keyword is spliced into a LIKE
    pattern as it is, so [_] and [%] in it act as wildcards: [a_c] returns
    the rows whose texts are [Draw a castle] and [abc] although the keyword
    occurs in none of their fields, and [%] returns every row. *)
Theorem search_reads_keyword_as_pattern :
  let self := opened (sample_conn []) in
  let row2 := mkRow 2 "Draw a castle" "art" "chatgpt" false in
  let row4 := mkRow 4 "abc" "abc,so-and-so" "" false in
  database.search_prompts "a_c" self = (self, Ret [row_prompt row2; row_prompt row4])
  /\ keyword_hit "a_c" row2 = false
  /\ keyword_hit "a_c" row4 = false
  /\ database.search_prompts "%" self = (self, Ret (map row_prompt sample_rows))
  /\ filter (keyword_hit "%") sample_rows = [].
Proof.
  cbv zeta. repeat split.
Qed.

(* ===================================================================== *)
(** ** The invariant of the connection state *)
(* ===================================================================== *)

Section Invariant.

Import database.

Lemma fresh_overwrite n new rows :
  Forall (fun r => (row_id r < n)%Z) rows ->
  Forall (fun r => (row_id r < n)%Z) (overwrite new rows).
Proof.
  induction 1 as [|r rows Hr _ IH]; [constructor|].
  unfold overwrite in *. simpl. constructor; [|exact IH].
  destruct (has_id (row_id new) r) eqn:E; [|exact Hr].
  apply has_id_true in E. rewrite <- E. exact Hr.
Qed.

Lemma fresh_filter n f rows :
  Forall (fun r => (row_id r < n)%Z) rows ->
  Forall (fun r : Row => (row_id r < n)%Z) (filter f rows).
Proof.
  rewrite !Forall_forall. intros H r Hin. apply filter_In in Hin. apply H, Hin.
Qed.

Lemma fresh_insert n rows t g l f :
  Forall (fun r => (row_id r < n)%Z) rows ->
  Forall (fun r => (row_id r < n + 1)%Z) (rows ++ [mkRow n t g l f]).
Proof.
  intros H. apply Forall_app. split.
  - eapply Forall_impl; [|exact H]. intros r Hr. simpl in Hr. lia.
  - constructor; [simpl; lia | constructor].
Qed.

Lemma fresh_succ n rows :
  Forall (fun r => (row_id r < n)%Z) rows ->
  Forall (fun r => (row_id r < n + 1)%Z) rows.
Proof.
  apply Forall_impl. intros r Hr. lia.
Qed.

Ltac wf_done :=
  split; [reflexivity|];
  unfold fresh_ids; cbn [working next_id];
  first [ assumption
        | apply fresh_insert; assumption
        | apply fresh_succ; assumption
        | apply fresh_overwrite; assumption
        | apply fresh_filter; assumption ].

Ltac wf_cases fl :=
  faults_cases fl; db_compute;
  intros H; inversion H; subst; clear H; wf_done.

(** A connection opened on an empty table satisfies the invariant. *)
Lemma wf_empty n fr fl : wf (mkConn [] [] n fr fl).
Proof.
  split; [reflexivity | constructor].
Qed.

(** Every storage operation that returns to its caller keeps it. *)
Theorem storage_keeps_wf (c c' : Conn) :
  wf c ->
  (forall r, create_table (opened c) = (opened c', Ret r) -> wf c')
  /\ (forall p r, insert_prompt p (opened c) = (opened c', Ret r) -> wf c')
  /\ (forall k r, get_prompt_by_id k (opened c) = (opened c', Ret r) -> wf c')
  /\ (forall p r, update_prompt p (opened c) = (opened c', Ret r) -> wf c')
  /\ (forall k r, delete_prompt k (opened c) = (opened c', Ret r) -> wf c')
  /\ (forall r, get_all_prompts (opened c) = (opened c', Ret r) -> wf c')
  /\ (forall kw r, search_prompts kw (opened c) = (opened c', Ret r) -> wf c').
Proof.
  destruct c as [cm wk nid fr fl]. intros [Hs Hf].
  unfold settled, fresh_ids in Hs, Hf. simpl in Hs, Hf. subst cm.
  refine (conj _ (conj _ (conj _ (conj _ (conj _ (conj _ _)))))).
  - intros r. wf_cases fl.
  - intros p r. wf_cases fl.
  - intros k r. wf_cases fl.
  - intros p r. destruct (id p) as [k|] eqn:E.
    + faults_cases fl; db_compute; rewrite E;
        intros H; inversion H; subst; clear H; wf_done.
    + db_compute. rewrite E. intros H; inversion H; subst. wf_done.
  - intros k r. wf_cases fl.
  - intros r. wf_cases fl.
  - intros kw r. wf_cases fl.
Qed.

End Invariant.

Lemma storage_keeps_wf_witness :
  wf (mkConn (sample_rows ++ [mkRow 5 "Explain recursion" "teaching,cs" "Gemini API" false])
             (sample_rows ++ [mkRow 5 "Explain recursion" "teaching,cs" "Gemini API" false])
             6 false []).
Proof.
  refine (proj1 (proj2 (storage_keeps_wf (sample_conn []) _ _)) sample_prompt (Some 5%Z) eq_refl).
  split; [reflexivity|].
  unfold fresh_ids. simpl. repeat (apply Forall_cons; [reflexivity|]). apply Forall_nil.
Defined.

(* ===================================================================== *)
(** ** Delete, add, and what an update reports *)
(* ===================================================================== *)

Section CountFacts.

Lemma positive_length {A} (f : A -> bool) (l : list A) :
  (0 <? Z.of_nat (List.length (filter f l)))%Z = existsb f l.
Proof.
  induction l as [|x l IH]; [reflexivity|].
  simpl. destruct (f x); [|exact IH].
  simpl. reflexivity.
Qed.

Lemma filter_filter {A} (f g : A -> bool) (l : list A) :
  filter g (filter f l) = filter (fun x => f x && g x) l.
Proof.
  induction l as [|x l IH]; [reflexivity|].
  simpl. destruct (f x); simpl; [destruct (g x)|]; rewrite IH; reflexivity.
Qed.


Lemma filter_none k rows :
  filter (has_id k) (filter (fun r => negb (has_id k r)) rows) = [].
Proof.
  rewrite filter_filter. induction rows as [|r rows IH]; [reflexivity|].
  simpl. destruct (has_id k r); simpl; exact IH.
Qed.

End CountFacts.

(** Delete-then-get: on a connection without pending faults
    [delete_prompt k] removes every row with id [k], reports whether there
    was one, and a following [get_prompt_by_id k] returns absent. *)
Theorem delete_then_get (c : Conn) (k : Z) :
  healthy c ->
  let rows := filter (fun r => negb (has_id k r)) (working c) in
  let c1 := mkConn rows rows (next_id c) (found_rows c) [] in
  services.delete_prompt k (opened c)
  = (opened c1, Ret (existsb (has_id k) (working c)))
  /\ database.get_prompt_by_id k (opened c1) = (opened c1, Ret None).
Proof.
  intros Hc rows c1. split.
  - unfold services.delete_prompt. rewrite (delete_healthy c Hc).
    rewrite positive_length. reflexivity.
  - rewrite (get_healthy c1 eq_refl). unfold c1, rows. cbn [working].
    rewrite filter_none. reflexivity.
Qed.

Lemma delete_then_get_witness :
  exists s1,
    services.delete_prompt 2 (opened (sample_conn [])) = (s1, Ret true)
    /\ database.get_prompt_by_id 2 s1 = (s1, Ret None).
Proof.
  eexists. exact (delete_then_get (sample_conn []) 2 eq_refl).
Defined.

(** [add_prompt] stores a row that is not a favourite: on a connection
    without pending faults it returns the value of the AUTO_INCREMENT
    counter and appends the row built from its arguments. *)
Theorem add_prompt_not_favourite (c : Conn) (text : string) (tags : list string)
    (tool : string) :
  healthy c ->
  let rows := (working c ++ [mkRow (next_id c) text (joinTags tags) tool false])%list in
  services.add_prompt text tags tool (opened c)
  = (opened (mkConn rows rows (next_id c + 1) (found_rows c) []), Ret (Some (next_id c))).
Proof.
  intros Hc rows. unfold services.add_prompt. rewrite (insert_healthy c Hc).
  reflexivity.
Qed.

Lemma add_prompt_not_favourite_witness :
  snd (services.add_prompt "Explain recursion" ["teaching"; "cs"] "Gemini API"
         (opened (sample_conn [])))
  = Ret (Some 5%Z).
Proof.
  rewrite (add_prompt_not_favourite (sample_conn []) _ _ _ eq_refl). reflexivity.
Defined.



(* ===================================================================== *)
(** ** Entities that survive the storage format *)
(* ===================================================================== *)

Section CleanFacts.

Lemma split_comma_free s : Forall comma_free (py.split comma s).
Proof.
  induction s as [|c s IH]; simpl.
  - repeat constructor.
  - destruct (Ascii.eqb c comma) eqn:E.
    + constructor; [reflexivity | exact IH].
    + destruct (py.split comma s) as [|piece rest].
      * constructor; [|constructor]. unfold comma_free. simpl. rewrite E. reflexivity.
      * inversion IH as [|? ? Hp Hr]; subst. constructor; [|exact Hr].
        unfold comma_free in *. simpl. rewrite E. exact Hp.
Qed.

Lemma lstrip_comma_free s : comma_free s -> comma_free (py.lstrip s).
Proof.
  unfold comma_free. induction s as [|c s IH]; [auto|].
  simpl. intros H. apply orb_false_iff in H. destruct H as [Hc Hs].
  destruct (py.is_space c); [apply IH, Hs|]. simpl. rewrite Hc, Hs. reflexivity.
Qed.

Lemma rstrip_comma_free s : comma_free s -> comma_free (py.rstrip s).
Proof.
  unfold comma_free. induction s as [|c s IH]; [auto|].
  simpl. intros H. apply orb_false_iff in H. destruct H as [Hc Hs].
  specialize (IH Hs). destruct (py.rstrip s) as [|d r].
  - destruct (py.is_space c); [reflexivity|]. simpl. rewrite Hc. reflexivity.
  - simpl in *. rewrite Hc. exact IH.
Qed.

Lemma strip_comma_free s : comma_free s -> comma_free (py.strip s).
Proof.
  intros H. apply rstrip_comma_free, lstrip_comma_free, H.
Qed.

Lemma strip_pieces_all_clean s : Forall clean_tag (strip_pieces s).
Proof.
  apply Forall_forall. intros t Hin. apply strip_pieces_spec in Hin.
  destruct Hin as [piece [Hin [E Hne]]]. subst t.
  split; [exact Hne|]. split; [|apply strip_trimmed].
  apply strip_comma_free.
  eapply Forall_forall; [apply split_comma_free | exact Hin].
Qed.

Lemma tags_of_clean v : Forall clean_tag (tags_of v).
Proof.
  destruct v as [s|]; simpl; [|constructor].
  destruct (py.truthy s); [apply strip_pieces_all_clean | constructor].
Qed.

Lemma strip_pieces_empty : strip_pieces EmptyString = [].
Proof. reflexivity. Qed.

Lemma tags_of_strip_pieces s : tags_of (Some s) = strip_pieces s.
Proof.
  destruct s; reflexivity.
Qed.

Lemma roundtrip_clean p : Forall clean_tag (tags p) -> from_dict (to_dict p) = p.
Proof.
  intros H. destruct p as [i t g l f]. unfold from_dict, to_dict. simpl.
  f_equal. exact (parse_join_clean g H).
Qed.

End CleanFacts.

(** The conversions of [models.py] are inverse to each other exactly on
    the entities whose tags are all non-empty, comma-free and trimmed:
    [from_dict (to_dict p)] is [p] if and only if every tag of [p] is such
    a tag; id, text, tool and favourite flag always come back. *)
Theorem dict_roundtrip_iff_clean (p : Prompt) :
  (from_dict (to_dict p) = p <-> Forall clean_tag (tags p))
  /\ id (from_dict (to_dict p)) = id p
  /\ text (from_dict (to_dict p)) = text p
  /\ tool (from_dict (to_dict p)) = tool p
  /\ is_favorite (from_dict (to_dict p)) = is_favorite p.
Proof.
  split; [|repeat split].
  split.
  - intros E. rewrite <- E. apply tags_of_clean.
  - apply roundtrip_clean.
Qed.

(** Whatever dictionary [from_dict] is given, the entity it builds is a
    fixed point of serialising and parsing: its tags are non-empty,
    comma-free and trimmed, so [to_dict] followed by [from_dict] returns
    it unchanged. *)
Theorem from_dict_normalises (data : dict) :
  Forall clean_tag (tags (from_dict data))
  /\ from_dict (to_dict (from_dict data)) = from_dict data.
Proof.
  assert (H : Forall clean_tag (tags (from_dict data))) by apply tags_of_clean.
  split; [exact H|]. apply roundtrip_clean, H.
Qed.

Lemma dict_roundtrip_iff_clean_witness :
  from_dict (to_dict sample_prompt) = sample_prompt
  /\ from_dict (to_dict (mkPrompt None "t" ["a,b"] "" false))
     = mkPrompt None "t" ["a"; "b"] "" false.
Proof.
  split; [|reflexivity].
  apply (proj1 (dict_roundtrip_iff_clean sample_prompt)).
  repeat (apply Forall_cons; [repeat split; discriminate|]). apply Forall_nil.
Defined.

(* ===================================================================== *)
(** ** What the results of the storage layer tell the caller *)
(* ===================================================================== *)

Section Outcomes.

Import database.

Lemma filter_nil_no_row k rows :
  filter (has_id k) rows = [] -> Forall (fun r => row_id r <> k) rows.
Proof.
  induction rows as [|r rows IH]; [constructor|].
  simpl. destruct (has_id k r) eqn:E; [discriminate|].
  intros H. constructor; [apply has_id_false, E | apply IH, H].
Qed.

Lemma unchanged_overwrite new rows :
  filter (fun r => negb (row_eqb r new)) (filter (has_id (row_id new)) rows) = [] ->
  overwrite new rows = rows.
Proof.
  induction rows as [|r rows IH]; [reflexivity|].
  unfold overwrite in *. simpl. destruct (has_id (row_id new) r) eqn:E; simpl.
  - destruct (row_eqb r new) eqn:Er; simpl; [|discriminate].
    intros H. apply row_eqb_eq in Er. subst r. rewrite (IH H). reflexivity.
  - intros H. rewrite (IH H). reflexivity.
Qed.

Lemma length_zero {A} (l : list A) :
  (0 <? Z.of_nat (List.length l))%Z = false -> l = [].
Proof.
  destruct l; [reflexivity|]. simpl. discriminate.
Qed.

(** An UPDATE that affects no row leaves the table as it was. *)
Lemma update_unreported c t g l f k :
  (0 <? rowcount (snd (run (UPDATE t g l f k) c)))%Z = false ->
  overwrite (mkRow k t g l f) (working c) = working c.
Proof.
  simpl. intros H. apply length_zero in H. destruct (found_rows c).
  - apply no_row_overwrite. simpl. apply filter_nil_no_row, H.
  - apply unchanged_overwrite. exact H.
Qed.

(** A DELETE that affects no row leaves the table as it was. *)
Lemma delete_unreported c k :
  (0 <? rowcount (snd (run (DELETE k) c)))%Z = false ->
  filter (fun r => negb (has_id k r)) (working c) = working c.
Proof.
  simpl. intros H. apply length_zero in H. apply filter_nil_no_row in H.
  induction H as [|r rows Hr _ IH]; [reflexivity|].
  simpl. apply has_id_false in Hr. rewrite Hr. simpl. rewrite IH. reflexivity.
Qed.

Lemma get_all_any c self' r :
  get_all_prompts (opened c) = (self', r) ->
  exists c', self' = opened c' /\ same_table c c'
    /\ (r = Raise Error \/ r = Ret [] \/ r = Ret (map row_prompt (working c))).
Proof.
  destruct c as [cm wk nid fr fl].
  faults_cases fl; db_compute; intros H; inversion H; subst; clear H;
    eexists; (split; [reflexivity|]); (split; [repeat split|]);
    first [ left; reflexivity
          | right; left; reflexivity
          | right; right; unfold row_prompt; rewrite map_map; reflexivity ].
Qed.

Lemma search_any c kw self' r :
  search_prompts kw (opened c) = (self', r) ->
  exists c', self' = opened c' /\ same_table c c'
    /\ (r = Raise Error \/ r = Ret []
        \/ exists f, r = Ret (map row_prompt (filter f (working c)))).
Proof.
  destruct c as [cm wk nid fr fl].
  faults_cases fl; db_compute; intros H; inversion H; subst; clear H;
    eexists; (split; [reflexivity|]); (split; [repeat split|]);
    first [ left; reflexivity
          | right; left; reflexivity
          | right; right; eexists; unfold row_prompt; rewrite map_map; reflexivity ].
Qed.

Lemma create_table_any c self' r :
  create_table (opened c) = (self', r) ->
  exists c', self' = opened c' /\ working c' = working c /\ next_id c' = next_id c.
Proof.
  destruct c as [cm wk nid fr fl].
  faults_cases fl; db_compute; intros H; inversion H; subst; clear H;
    eexists; repeat split.
Qed.

End Outcomes.

(** A write that reports failure has written nothing: when
    [insert_prompt] returns [None], or [update_prompt] or [delete_prompt]
    returns [False], the working and the committed rows are the ones from
    before the call, whatever driver faults occurred on the way (an
    insert that was rolled back after the statement ran has used up its
    id, nothing else). *)
Theorem failure_means_no_write (c c' : Conn) :
  settled c ->
  (forall p, database.insert_prompt p (opened c) = (opened c', Ret None) ->
             working c' = working c /\ committed c' = committed c)
  /\ (forall p, database.update_prompt p (opened c) = (opened c', Ret false) ->
                working c' = working c /\ committed c' = committed c)
  /\ (forall k, database.delete_prompt k (opened c) = (opened c', Ret false) ->
                working c' = working c /\ committed c' = committed c).
Proof.
  destruct c as [cm wk nid fr fl]. unfold settled. simpl. intros <-.
  refine (conj _ (conj _ _)).
  - intros p. faults_cases fl; db_compute; intros H;
      apply pair_equal_spec in H; destruct H as [Hs Hr]; try discriminate Hr;
      injection Hs as Hs; subst c'; split; reflexivity.
  - intros p. destruct (id p) as [k|] eqn:E.
    + faults_cases fl; db_compute; rewrite E; intros H;
        apply pair_equal_spec in H; destruct H as [Hs Hr]; try discriminate Hr;
        injection Hs as Hs; subst c'; try (split; reflexivity);
        injection Hr as Hr;
        pose proof (update_unreported (mkConn wk wk nid fr []) (text p)
                      (py.join "," (tags p)) (tool p) (is_favorite p) k Hr) as Hu;
        simpl in Hu; simpl; rewrite Hu; split; reflexivity.
    + db_compute. rewrite E. intros H. injection H as Hs. subst c'.
      split; reflexivity.
  - intros k. faults_cases fl; db_compute; intros H;
      apply pair_equal_spec in H; destruct H as [Hs Hr]; try discriminate Hr;
      injection Hs as Hs; subst c'; try (split; reflexivity);
      injection Hr as Hr;
      pose proof (delete_unreported (mkConn wk wk nid fr []) k Hr) as Hu;
      simpl in Hu; simpl; rewrite Hu; split; reflexivity.
Qed.

Lemma failure_means_no_write_witness :
  snd (database.insert_prompt sample_prompt (opened (sample_conn [false; false; true; false])))
  = Ret None
  /\ working (mkConn sample_rows sample_rows 6 false []) = sample_rows.
Proof.
  split; [reflexivity|].
  exact (proj1 (proj1 (failure_means_no_write (sample_conn [false; false; true; false])
                         (mkConn sample_rows sample_rows 6 false []) eq_refl)
                  sample_prompt eq_refl)).
Defined.

Section Reported.




End Reported.



(** Reading never writes: under any schedule of driver faults
    [get_prompt_by_id], [get_all_prompts], [search_prompts] and the service
    [search_and_filter_prompts] leave the working rows, the committed rows
    and the AUTO_INCREMENT counter as they are, and [create_table] leaves
    the working rows and the counter as they are. *)
Theorem reads_never_write (c : Conn) (self' : database.PromptDB) :
  (forall k r, database.get_prompt_by_id k (opened c) = (self', r) ->
               exists c', self' = opened c' /\ same_table c c')
  /\ (forall r, database.get_all_prompts (opened c) = (self', r) ->
                exists c', self' = opened c' /\ same_table c c')
  /\ (forall kw r, database.search_prompts kw (opened c) = (self', r) ->
                   exists c', self' = opened c' /\ same_table c c')
  /\ (forall keyword wanted r,
        services.search_and_filter_prompts keyword wanted (opened c) = (self', r) ->
        exists c', self' = opened c' /\ same_table c c')
  /\ (forall r, database.create_table (opened c) = (self', r) ->
                exists c', self' = opened c' /\ working c' = working c
                           /\ next_id c' = next_id c).
Proof.
  assert (Hall : forall r, database.get_all_prompts (opened c) = (self', r) ->
                           exists c', self' = opened c' /\ same_table c c').
  { intros r H. apply get_all_any in H. destruct H as [c' [E [Hs _]]]. eauto. }
  assert (Hsearch : forall kw r, database.search_prompts kw (opened c) = (self', r) ->
                                 exists c', self' = opened c' /\ same_table c c').
  { intros kw r H. apply search_any in H. destruct H as [c' [E [Hs _]]]. eauto. }
  refine (conj _ (conj Hall (conj Hsearch (conj _ _)))).
  - intros k r H. apply get_any in H. destruct H as [c' [E [Hs _]]]. eauto.
  - intros keyword wanted r.
    unfold services.search_and_filter_prompts, bind, ret.
    destruct keyword as [[|a kw]|]; cbn [py.truthy];
      match goal with
      | |- context [match ?call with _ => _ end] =>
          destruct call as [s1 [l|e]] eqn:Ec
      end; destruct wanted; intros H; injection H as Hs Hr; subst s1; eauto.
  - intros r. apply create_table_any.
Qed.

(** Every entity a read returns is the image of a stored row: it carries
    the id, text, tool and favourite flag of that row; and
    [get_prompt_by_id k] returns no entity with an id other than [k].
    This holds under any schedule of driver faults. *)
Theorem reads_return_stored_rows (c : Conn) (self' : database.PromptDB) (p : Prompt) :
  (forall k, database.get_prompt_by_id k (opened c) = (self', Ret (Some p)) ->
             id p = Some k /\ exists row, In row (working c) /\ p = row_prompt row)
  /\ (forall l, database.get_all_prompts (opened c) = (self', Ret l) -> In p l ->
                exists row, In row (working c) /\ p = row_prompt row)
  /\ (forall kw l, database.search_prompts kw (opened c) = (self', Ret l) -> In p l ->
                   exists row, In row (working c) /\ p = row_prompt row).
Proof.
  refine (conj _ (conj _ _)).
  - intros k H. apply get_any in H. destruct H as [c' [_ [_ Hr]]].
    destruct Hr as [Hr | [Hr | Hr]]; try discriminate Hr.
    destruct (filter (has_id k) (working c)) as [|row0 rest] eqn:Ef;
      [discriminate Hr|].
    injection Hr as Hr. subst p.
    assert (Hin : In row0 (filter (has_id k) (working c)))
      by (rewrite Ef; left; reflexivity).
    apply filter_In in Hin. destruct Hin as [Hin E]. apply has_id_true in E.
    split; [simpl; rewrite E; reflexivity|]. exists row0. auto.
  - intros l H Hin. apply get_all_any in H. destruct H as [c' [_ [_ Hr]]].
    destruct Hr as [Hr | [Hr | Hr]]; try discriminate Hr; injection Hr as Hr; subst l.
    + contradiction.
    + apply in_map_iff in Hin. destruct Hin as [row [E Hin]]. exists row. auto.
  - intros kw l H Hin. apply search_any in H. destruct H as [c' [_ [_ Hr]]].
    destruct Hr as [Hr | [Hr | [f Hr]]]; try discriminate Hr; injection Hr as Hr; subst l.
    + contradiction.
    + apply in_map_iff in Hin. destruct Hin as [row [E Hin]].
      apply filter_In in Hin. exists row. split; [apply Hin | auto].
Qed.

Lemma reads_return_stored_rows_witness :
  exists row, In row sample_rows
    /\ mkPrompt (Some 4%Z) "abc" ["abc"; "so-and-so"] "" false = row_prompt row.
Proof.
  exact (proj2 (proj1 (reads_return_stored_rows (sample_conn [false])
                         (opened (sample_conn []))
                         (mkPrompt (Some 4%Z) "abc" ["abc"; "so-and-so"] "" false))
                  4%Z eq_refl)).
Defined.

(* ===================================================================== *)
(** ** Writes on a connection without faults *)
(* ===================================================================== *)

Section Frames.

Import database.

Lemma get_result c k :
  healthy c ->
  snd (get_prompt_by_id k (opened c))
  = Ret (option_map row_prompt (hd_error (filter (has_id k) (working c)))).
Proof.
  intros Hc. rewrite (get_healthy c Hc). reflexivity.
Qed.

Lemma filter_overwrite_other k new rows :
  row_id new <> k ->
  filter (has_id k) (overwrite new rows) = filter (has_id k) rows.
Proof.
  intros Hne. induction rows as [|r rows IH]; [reflexivity|].
  unfold overwrite in *. simpl.
  destruct (has_id (row_id new) r) eqn:E; simpl; rewrite IH.
  - apply has_id_true in E.
    assert (H1 : has_id k new = false) by (apply has_id_false; exact Hne).
    assert (H2 : has_id k r = false) by (apply has_id_false; congruence).
    rewrite H1, H2. reflexivity.
  - reflexivity.
Qed.

Lemma filter_delete_other k k' rows :
  k' <> k ->
  filter (has_id k') (filter (fun r => negb (has_id k r)) rows)
  = filter (has_id k') rows.
Proof.
  intros Hne. induction rows as [|r rows IH]; [reflexivity|].
  simpl. destruct (has_id k r) eqn:E; simpl; rewrite IH.
  - apply has_id_true in E.
    assert (H : has_id k' r = false) by (apply has_id_false; congruence).
    rewrite H. reflexivity.
  - reflexivity.
Qed.

Lemma filter_insert_other k rows r :
  row_id r <> k -> filter (has_id k) (rows ++ [r]) = filter (has_id k) rows.
Proof.
  intros Hne. rewrite filter_app. simpl.
  apply has_id_false in Hne. rewrite Hne. apply app_nil_r.
Qed.

Lemma hit_or_miss k rows :
  filter (has_id k) rows = []
  \/ exists row0 rest, filter (has_id k) rows = row0 :: rest /\ row_id row0 = k.
Proof.
  destruct (filter (has_id k) rows) as [|row0 rest] eqn:Ef; [left; reflexivity|].
  right. exists row0, rest. split; [reflexivity|].
  assert (Hin : In row0 (filter (has_id k) rows)) by (rewrite Ef; left; reflexivity).
  apply filter_In in Hin. apply has_id_true, Hin.
Qed.

(** The normal form of a stored tags string is stable. *)
Lemma parse_join_parse s : parseTags (joinTags (parseTags s)) = parseTags s.
Proof.
  apply parse_join_clean. apply tags_of_clean.
Qed.

End Frames.



(** Toggling is an involution that touches the flag only: on a connection
    without faults, if [get_prompt_by_id k] returns [p], then the toggle
    returns the negated flag, [get_prompt_by_id k] then returns [p] with
    the flag negated and all other fields as they were, and a second toggle
    returns the original flag and brings [p] back. *)
Theorem toggle_twice_restores (c : Conn) (k : Z) (p : Prompt) :
  healthy c ->
  database.get_prompt_by_id k (opened c) = (opened c, Ret (Some p)) ->
  exists s1 s2,
    services.toggle_favorite_status k (opened c)
    = (s1, Ret (Some (negb (is_favorite p))))
    /\ database.get_prompt_by_id k s1
       = (s1, Ret (Some (mkPrompt (id p) (text p) (tags p) (tool p)
                                  (negb (is_favorite p)))))
    /\ services.toggle_favorite_status k s1 = (s2, Ret (Some (is_favorite p)))
    /\ database.get_prompt_by_id k s2 = (s2, Ret (Some p)).
Proof.
  intros Hc Hget. rewrite (get_healthy c Hc) in Hget.
  destruct (hit_or_miss k (working c)) as [Ef | [row0 [rest [Ef E0]]]];
    rewrite Ef in Hget; [discriminate Hget|].
  injection Hget as Hp.
  set (r1 := mkRow k (row_text row0) (joinTags (parseTags (row_tags row0)))
                   (row_tool row0) (negb (row_is_favorite row0))).
  set (c1 := mkConn (overwrite r1 (working c)) (overwrite r1 (working c))
                    (next_id c) (found_rows c) []).
  pose proof (toggle_present c k row0 rest Hc Ef) as H1. cbv zeta in H1.
  fold r1 in H1. fold c1 in H1.
  assert (Ef1 : filter (has_id k) (working c1) = r1 :: map (fun _ => r1) rest).
  { unfold c1. cbn [working]. rewrite (filter_overwrite k r1 _ eq_refl), Ef.
    reflexivity. }
  pose proof (get_healthy c1 eq_refl k) as H2. rewrite Ef1 in H2.
  cbn [hd_error option_map] in H2.
  set (r2 := mkRow k (row_text r1) (joinTags (parseTags (row_tags r1)))
                   (row_tool r1) (negb (row_is_favorite r1))).
  set (c2 := mkConn (overwrite r2 (working c1)) (overwrite r2 (working c1))
                    (next_id c1) (found_rows c1) []).
  pose proof (toggle_present c1 k r1 _ eq_refl Ef1) as H3. cbv zeta in H3.
  fold r2 in H3. fold c2 in H3.
  assert (Ef2 : filter (has_id k) (working c2)
                = r2 :: map (fun _ => r2) (map (fun _ => r1) rest)).
  { unfold c2. cbn [working]. rewrite (filter_overwrite k r2 _ eq_refl), Ef1.
    reflexivity. }
  pose proof (get_healthy c2 eq_refl k) as H4. rewrite Ef2 in H4.
  cbn [hd_error option_map] in H4.
  assert (Ep1 : row_prompt r1
                = mkPrompt (id p) (text p) (tags p) (tool p) (negb (is_favorite p))).
  { subst p. unfold row_prompt, from_dict, as_dict, r1. simpl id. simpl text.
    simpl tool. simpl is_favorite. cbn [d_tags row_tags d_id row_id]. f_equal.
    - rewrite E0. reflexivity.
    - apply parse_join_parse. }
  assert (Ep2 : row_prompt r2 = p).
  { subst p. unfold row_prompt, from_dict, as_dict, r2, r1.
    cbn [d_id d_text d_tags d_tool d_is_favorite row_id row_text row_tags row_tool
         row_is_favorite].
    rewrite negb_involutive, E0. f_equal.
    change (tags_of (Some (joinTags (parseTags (joinTags (parseTags (row_tags row0)))))))
      with (parseTags (joinTags (parseTags (joinTags (parseTags (row_tags row0)))))).
    rewrite !parse_join_parse. reflexivity. }
  exists (opened c1), (opened c2).
  rewrite Ep1 in H2. rewrite Ep2 in H4.
  assert (E3 : negb (row_is_favorite r1) = is_favorite p).
  { subst p. unfold r1. cbn [row_is_favorite]. apply negb_involutive. }
  rewrite E3 in H3.
  split; [subst p; exact H1|]. split; [exact H2|]. split; [exact H3 | exact H4].
Qed.

Lemma toggle_twice_restores_witness :
  exists s1 s2,
    services.toggle_favorite_status 1 (opened (sample_conn []))
    = (s1, Ret (Some false))
    /\ database.get_prompt_by_id 1 s1
       = (s1, Ret (Some (mkPrompt (Some 1%Z) "Summarise with GPT-4" ["summary"; "notes"]
                                  "OpenAI" false)))
    /\ services.toggle_favorite_status 1 s1 = (s2, Ret (Some true))
    /\ database.get_prompt_by_id 1 s2
       = (s2, Ret (Some (mkPrompt (Some 1%Z) "Summarise with GPT-4" ["summary"; "notes"]
                                  "OpenAI" true))).
Proof.
  exact (toggle_twice_restores (sample_conn []) 1
           (mkPrompt (Some 1%Z) "Summarise with GPT-4" ["summary"; "notes"] "OpenAI" true)
           eq_refl eq_refl).
Defined.

(** A write touches one id only: on a connection without faults, what
    [get_prompt_by_id k'] returns is the same before and after a storage
    update, a service update, a toggle or a delete on another id [k], and
    the same before and after an insert when [k'] is not the id the insert
    hands out. *)
Theorem writes_touch_one_id (c : Conn) (k k' : Z) :
  healthy c -> k' <> k ->
  let before := snd (database.get_prompt_by_id k' (opened c)) in
  (forall p, id p = Some k ->
     snd (database.get_prompt_by_id k' (fst (database.update_prompt p (opened c))))
     = before)
  /\ (forall text tags tool fav,
        snd (database.get_prompt_by_id k'
               (fst (services.update_prompt k text tags tool fav (opened c))))
        = before)
  /\ snd (database.get_prompt_by_id k'
            (fst (services.toggle_favorite_status k (opened c))))
     = before
  /\ snd (database.get_prompt_by_id k' (fst (services.delete_prompt k (opened c))))
     = before
  /\ (forall p, k' <> next_id c ->
        snd (database.get_prompt_by_id k' (fst (services.add_prompt (text p) (tags p)
                                                  (tool p) (opened c))))
        = before
        /\ snd (database.get_prompt_by_id k' (fst (database.insert_prompt p (opened c))))
           = before).
Proof.
  intros Hc Hne before. unfold before. rewrite (get_result c k' Hc).
  assert (Hover : forall new, row_id new = k ->
            snd (database.get_prompt_by_id k'
                   (opened (mkConn (overwrite new (working c)) (overwrite new (working c))
                                   (next_id c) (found_rows c) [])))
            = Ret (option_map row_prompt (hd_error (filter (has_id k') (working c))))).
  { intros new E. rewrite get_result by reflexivity. cbn [working].
    rewrite filter_overwrite_other by congruence. reflexivity. }
  refine (conj _ (conj _ (conj _ (conj _ _)))).
  - intros p E. rewrite (update_healthy c Hc p k E). cbn [fst]. apply Hover. reflexivity.
  - intros text tags tool fav.
    destruct (hit_or_miss k (working c)) as [Ef | [row0 [rest [Ef E0]]]].
    + unfold services.update_prompt, bind. rewrite (get_healthy c Hc), Ef.
      cbn [fst hd_error option_map ret]. apply get_result, Hc.
    + assert (Hrow : exists row, In row (working c) /\ row_id row = k).
      { exists row0. split; [|exact E0].
        assert (Hin : In row0 (filter (has_id k) (working c)))
          by (rewrite Ef; left; reflexivity).
        apply filter_In in Hin. apply Hin. }
      destruct (service_update_present c k text tags tool fav Hc Hrow) as [ok Hup].
      rewrite Hup. cbn [fst]. apply Hover. reflexivity.
  - destruct (hit_or_miss k (working c)) as [Ef | [row0 [rest [Ef E0]]]].
    + unfold services.toggle_favorite_status, bind. rewrite (get_healthy c Hc), Ef.
      cbn [fst hd_error option_map ret]. apply get_result, Hc.
    + rewrite (toggle_present c k row0 rest Hc Ef). cbn [fst]. apply Hover. reflexivity.
  - unfold services.delete_prompt. rewrite (delete_healthy c Hc). cbn [fst].
    rewrite get_result by reflexivity. cbn [working].
    rewrite filter_delete_other by exact Hne. reflexivity.
  - intros p Hfresh.
    assert (Hins : snd (database.get_prompt_by_id k'
                          (fst (database.insert_prompt p (opened c))))
                   = Ret (option_map row_prompt
                            (hd_error (filter (has_id k') (working c))))).
    { rewrite (insert_healthy c Hc). cbn [fst].
      rewrite get_result by reflexivity. cbn [working].
      rewrite filter_insert_other; [reflexivity|]. simpl. congruence. }
    split; [|exact Hins].
    unfold services.add_prompt. rewrite (insert_healthy c Hc). cbn [fst].
    rewrite get_result by reflexivity. cbn [working].
    rewrite filter_insert_other; [reflexivity|]. simpl. congruence.
Qed.

Lemma writes_touch_one_id_witness :
  snd (database.get_prompt_by_id 1
         (fst (services.toggle_favorite_status 2 (opened (sample_conn [])))))
  = snd (database.get_prompt_by_id 1 (opened (sample_conn [])))
  /\ snd (database.get_prompt_by_id 1
            (fst (services.delete_prompt 2 (opened (sample_conn [])))))
     = snd (database.get_prompt_by_id 1 (opened (sample_conn []))).
Proof.
  pose proof (writes_touch_one_id (sample_conn []) 2 1 eq_refl) as H.
  cbv zeta in H.
  assert (Hne : 1%Z <> 2%Z) by discriminate.
  destruct (H Hne) as [_ [_ [Ht [Hd _]]]].
  split; [exact Ht | exact Hd].
Defined.



(* ===================================================================== *)
(** ** The console: tags as typed and as shown *)
(* ===================================================================== *)

Section TagLines.

Lemma strip_padded x : trimmed x -> py.strip (String " " x) = x.
Proof.
  intros H. unfold py.strip. change (py.lstrip (String " " x)) with (py.lstrip x).
  apply strip_fixed, H.
Qed.

Lemma split_padded s :
  py.split comma (String " " s)
  = match py.split comma s with
    | piece :: rest => String " " piece :: rest
    | [] => [String " " EmptyString]
    end.
Proof. reflexivity. Qed.

Lemma split_join_shown x l :
  Forall comma_free (x :: l) ->
  py.split comma (py.join ", " (x :: l)) = x :: map (String " ") l.
Proof.
  revert x. induction l as [|y l IH]; intros x H.
  - simpl. apply split_one. inversion H; assumption.
  - inversion H as [|? ? Hx Hl]; subst.
    change (py.join ", " (x :: y :: l))
      with (x ++ String comma (String " " (py.join ", " (y :: l)))).
    rewrite (split_app _ _ Hx), split_padded, (IH y Hl). reflexivity.
Qed.

Lemma strip_each_padded l :
  Forall clean_tag l ->
  map py.strip (filter (fun tag => py.truthy (py.strip tag)) (map (String " ") l)) = l.
Proof.
  induction 1 as [|t l [Hne [_ Htr]] _ IH]; [reflexivity|].
  simpl map at 2. simpl filter. rewrite (strip_padded _ Htr).
  apply truthy_true in Hne. rewrite Hne. simpl map. rewrite (strip_padded _ Htr), IH.
  reflexivity.
Qed.

Lemma shown_tags_parse l : Forall clean_tag l -> strip_pieces (py.join ", " l) = l.
Proof.
  intros H. destruct l as [|x l]; [reflexivity|].
  unfold strip_pieces. rewrite split_join_shown.
  - inversion H as [|? ? [Hne [Hc Htr]] Hl]; subst.
    simpl filter. rewrite (strip_fixed _ Htr).
    pose proof Hne as Hne'. apply truthy_true in Hne'. rewrite Hne'.
    simpl map. rewrite (strip_fixed _ Htr). f_equal. apply strip_each_padded, Hl.
  - eapply Forall_impl; [|exact H]. intros t [_ [Hc _]]. exact Hc.
Qed.

Lemma stored_tags_parse l : Forall clean_tag l -> strip_pieces (py.join "," l) = l.
Proof.
  intros H. rewrite <- tags_of_strip_pieces. exact (parse_join_clean l H).
Qed.

End TagLines.

(** The tags the console reads from a typed line are tags the storage
    format keeps: every one is non-empty, comma-free and trimmed, for any
    line.  And the way [display_prompt] and [edit_prompt] show such tags,
    joined by a comma and a blank, reads back as the same tags when it is
    typed at the tags question. *)
Theorem typed_tags_are_kept (line : string) (shown : list string) :
  Forall clean_tag (strip_pieces line)
  /\ strip_pieces (py.join ", " (strip_pieces line)) = strip_pieces line
  /\ parseTags (joinTags (strip_pieces line)) = strip_pieces line
  /\ (Forall clean_tag shown -> strip_pieces (py.join ", " shown) = shown).
Proof.
  pose proof (strip_pieces_all_clean line) as H.
  split; [exact H|]. split; [apply shown_tags_parse, H|].
  split; [apply parse_join_clean, H | apply shown_tags_parse].
Qed.

Lemma typed_tags_are_kept_witness :
  strip_pieces " marketing , social media,, " = ["marketing"; "social media"]
  /\ strip_pieces (py.join ", " ["marketing"; "social media"])
     = ["marketing"; "social media"].
Proof.
  split; [reflexivity|].
  apply (proj2 (proj2 (proj2 (typed_tags_are_kept "" ["marketing"; "social media"])))).
  repeat (apply Forall_cons; [repeat split; discriminate|]). apply Forall_nil.
Defined.

(* ===================================================================== *)
(** ** The console: menu entries *)
(* ===================================================================== *)

(** Literals that [int] reads, and answers it refuses: a separator such
    as FS next to the digits, which [str.strip] would drop, is not
    whitespace for [int]. *)
Example int_literals :
  builtins.int " 42 " = Some 42%Z
  /\ builtins.int "-1_000" = Some (-1000)%Z
  /\ builtins.int (String "160" "7") = Some 7%Z
  /\ builtins.int (String "028" "2") = None
  /\ py.strip (String "028" "2") = "2"
  /\ builtins.int "1__0" = None
  /\ builtins.int "4 2" = None
  /\ builtins.int "" = None.
Proof. repeat split. Qed.

(** An answer that [int] refuses never reaches the storage: for edit,
    toggle and delete the console shows [Invalid ID. Please enter a
    number.], waits for Enter and returns, with the storage object exactly
    as it was (no call into the facade is made), whatever the configured
    messages. *)
Theorem invalid_id_touches_nothing
    (Messages : main.Message -> option main.Template)
    (answer enter : string) (rest : list string) (shown : list main.Output)
    (store : database.PromptDB) :
  builtins.int answer = None ->
  let invalid := main.Printed (main.Text "Invalid ID. Please enter a number.") in
  main.edit_prompt Messages (console (answer :: enter :: rest) shown store)
  = (console rest
       (shown ++ [main.Cleared;
                  main.Printed (main.Text (main.nl ++ "--- Edit Prompt ---"));
                  main.Asked (main.Text "Enter ID of prompt to edit: ");
                  invalid; asked_enter]) store, main.Done tt)
  /\ main.toggle_favorite_status Messages (console (answer :: enter :: rest) shown store)
     = (console rest
          (shown ++ [main.Cleared;
                     main.Printed (main.Text (main.nl ++ "--- Toggle Favorite Status ---"));
                     main.Asked (main.Text "Enter ID of prompt to toggle favorite status: ");
                     invalid; asked_enter]) store, main.Done tt)
  /\ main.delete_prompt Messages (console (answer :: enter :: rest) shown store)
     = (console rest
          (shown ++ [main.Cleared;
                     main.Printed (main.Text (main.nl ++ "--- Delete Prompt ---"));
                     main.Asked (main.Text "Enter ID of prompt to delete: ");
                     invalid; asked_enter]) store, main.Done tt).
Proof.
  intros H invalid. unfold console, asked_enter, invalid.
  repeat split; io_compute; rewrite H; io_compute;
    rewrite <- !app_assoc; reflexivity.
Qed.

Lemma invalid_id_touches_nothing_witness :
  main.delete_prompt unset_messages
    (console ["two"; ""; "7"] [] (opened (sample_conn [true])))
  = (console ["7"]
       [main.Cleared;
        main.Printed (main.Text (main.nl ++ "--- Delete Prompt ---"));
        main.Asked (main.Text "Enter ID of prompt to delete: ");
        main.Printed (main.Text "Invalid ID. Please enter a number.");
        asked_enter] (opened (sample_conn [true])), main.Done tt)
  /\ main.edit_prompt sample_messages
       (console [String "028" "2"; ""] [] (opened (sample_conn [])))
     = (console []
          [main.Cleared;
           main.Printed (main.Text (main.nl ++ "--- Edit Prompt ---"));
           main.Asked (main.Text "Enter ID of prompt to edit: ");
           main.Printed (main.Text "Invalid ID. Please enter a number.");
           asked_enter] (opened (sample_conn [])), main.Done tt).
Proof.
  split.
  - exact (proj2 (proj2 (invalid_id_touches_nothing unset_messages "two" "" ["7"] []
                           (opened (sample_conn [true])) eq_refl))).
  - exact (proj1 (invalid_id_touches_nothing sample_messages (String "028" "2") "" [] []
                    (opened (sample_conn [])) eq_refl)).
Defined.

Section ConsoleFacts.

Import database.



End ConsoleFacts.



Section EditFacts.

Import database.

Lemma get_some_row c k p :
  healthy c ->
  get_prompt_by_id k (opened c) = (opened c, Ret (Some p)) ->
  exists row0 rest,
    filter (has_id k) (working c) = row0 :: rest /\ row_id row0 = k
    /\ p = row_prompt row0.
Proof.
  intros Hc Hget. rewrite (get_healthy c Hc) in Hget.
  destruct (hit_or_miss k (working c)) as [Ef | [row0 [rest [Ef E0]]]];
    rewrite Ef in Hget; [discriminate Hget|].
  injection Hget as Hp. exists row0, rest. auto.
Qed.

Lemma hit_in k rows row0 rest :
  filter (has_id k) rows = row0 :: rest ->
  exists row, In row rows /\ row_id row = k.
Proof.
  intros Ef. exists row0.
  assert (Hin : In row0 (filter (has_id k) rows)) by (rewrite Ef; left; reflexivity).
  apply filter_In in Hin. destruct Hin as [Hin E]. split; [exact Hin|].
  apply has_id_true, E.
Qed.

Lemma row_eqb_refl r : row_eqb r r = true.
Proof. apply row_eqb_eq. reflexivity. Qed.

End EditFacts.



(** Leaving every field blank is reported as a failure: on a connection
    without faults whose driver counts changed rows, when the one row with
    the id holds its tags in the joined form (as every row written through
    the console does), [edit_prompt] with four empty answers shows
    [Failed to update prompt.] and leaves the rows as they are, whatever
    the configured messages. *)
Theorem blank_edit_reports_failure
    (Messages : main.Message -> option main.Template)
    (c : Conn) (k : Z) (row0 : Row) (answer enter line : string)
    (rest : list string) (shown : list main.Output) :
  healthy c -> found_rows c = false ->
  builtins.int answer = Some k ->
  filter (has_id k) (working c) = [row0] ->
  row_tags row0 = joinTags (parseTags (row_tags row0)) ->
  (exists pre,
     main.edit_prompt Messages
       (console (answer :: "" :: "" :: "" :: "" :: enter :: rest) shown (opened c))
     = (console rest
          (pre ++ [main.Printed (main.Text "Failed to update prompt."); asked_enter])
          (opened (mkConn (working c) (working c) (next_id c) (found_rows c) [])),
        main.Done tt))
  /\ joinTags (strip_pieces line) = joinTags (parseTags (joinTags (strip_pieces line))).
Proof.
  intros Hc Hfr Hint Ef Hnorm. split.
  - assert (E0 : row_id row0 = k).
    { assert (Hin : In row0 (filter (has_id k) (working c)))
        by (rewrite Ef; left; reflexivity).
      apply filter_In in Hin. apply has_id_true, Hin. }
    assert (Hnew : mkRow k (row_text row0) (joinTags (tags_of (Some (row_tags row0))))
                         (row_tool row0) (row_is_favorite row0) = row0).
    { change (tags_of (Some (row_tags row0))) with (parseTags (row_tags row0)).
      rewrite <- Hnorm, <- E0. destruct row0; reflexivity. }
    assert (Hup : services.update_prompt k (row_text row0) (tags_of (Some (row_tags row0)))
                    (row_tool row0) (row_is_favorite row0) (opened c)
                  = (opened (mkConn (working c) (working c) (next_id c) (found_rows c) []),
                     Ret false)).
    { unfold services.update_prompt, bind.
      rewrite (get_healthy c Hc), Ef. cbn [hd_error option_map].
      rewrite (update_healthy c Hc _ k); [|simpl; rewrite E0; reflexivity].
      cbn [row_prompt from_dict as_dict id text tags tool is_favorite d_id d_text d_tags
           d_tool d_is_favorite]. cbv zeta.
      cbn [models.text models.tags models.tool models.is_favorite].
      rewrite Hnew, Ef, Hfr. cbn [filter]. rewrite row_eqb_refl. cbn [negb List.length].
      rewrite unchanged_overwrite; [reflexivity|].
      rewrite E0, Ef. cbn [filter]. rewrite row_eqb_refl. reflexivity. }
    unfold console, asked_enter. io_compute. rewrite Hint. io_compute.
    unfold services.get_prompt. rewrite (get_healthy c Hc), Ef.
    cbn [hd_error option_map]. io_compute.
    cbn [py.truthy String.eqb builtins.lower py.strip py.lstrip py.rstrip
         row_prompt from_dict as_dict id text tags tool is_favorite d_id d_text d_tags
         d_tool d_is_favorite].
    rewrite Hup. io_compute. eexists. rewrite <- app_assoc. reflexivity.
  - pose proof (strip_pieces_all_clean line) as H.
    rewrite (parse_join_clean _ H). reflexivity.
Qed.

Lemma blank_edit_reports_failure_witness :
  exists pre,
    main.edit_prompt unset_messages
      (console ["2"; ""; ""; ""; ""; ""; "7"] [] (opened (sample_conn [])))
    = (console ["7"]
         (pre ++ [main.Printed (main.Text "Failed to update prompt."); asked_enter])
         (opened (sample_conn [])), main.Done tt).
Proof.
  exact (proj1 (blank_edit_reports_failure unset_messages (sample_conn []) 2
                  (mkRow 2 "Draw a castle" "art" "chatgpt" false) "2" "" "" ["7"] []
                  eq_refl eq_refl eq_refl eq_refl eq_refl)).
Defined.

(* ===================================================================== *)
(** ** The console: the menu loop *)
(* ===================================================================== *)

Section LoopFacts.

Variable Messages : main.Message -> option main.Template.

Lemma tame_pure {A} (a : A) : tame Messages (main.pure a).
Proof.
  intros s s' r H. injection H as <- <-. split; [apply le_n | discriminate].
Qed.

Lemma tame_emit o : tame Messages (main.emit o).
Proof.
  intros s s' r H. injection H as <- <-. split; [apply le_n | discriminate].
Qed.

Lemma tame_print_format m args : tame Messages (main.print_format Messages m args).
Proof.
  unfold main.print_format.
  destruct (main.format Messages m args) as [e|] eqn:E; [|apply tame_emit].
  intros s s' r H. injection H as <- <-. split; [apply le_n|].
  intros why Hw. injection Hw as <-. right. right. right. exists m, args, e. auto.
Qed.

Lemma tame_input x : tame Messages (main.input x).
Proof.
  intros s s' r. unfold main.input. destruct (main.stdin s) as [|line rest] eqn:E;
    intros H; injection H as <- <-; simpl; split; auto with arith.
  - intros why Hw. injection Hw as <-. right. left. reflexivity.
  - discriminate.
Qed.

Lemma tame_call {A} (m : M database.PromptDB A) : tame Messages (main.call m).
Proof.
  intros s s' r. unfold main.call. destruct (m (main.db s)) as [db' [a|e]];
    intros H; injection H as <- <-; simpl; split; try apply le_n.
  - discriminate.
  - intros why Hw. injection Hw as <-. right. right. left. exists e. reflexivity.
Qed.

Lemma tame_sys_exit : tame Messages (main.sys_exit 0).
Proof.
  intros s s' r H. injection H as <- <-. split; [apply le_n|].
  intros why Hw. injection Hw as <-. left. reflexivity.
Qed.

Lemma tame_close : tame Messages main.close.
Proof.
  intros s s' r. unfold main.close.
  destruct (database.connection (main.db s)) as [conn|].
  - destruct (driver_call conn) as [conn' [u|e]];
      intros H; injection H as <- <-; simpl; split; try discriminate; apply le_n.
  - intros H; injection H as <- <-. split; [apply le_n | discriminate].
Qed.

Lemma tame_and_then {A B} (m : main.IO A) (k : A -> main.IO B) :
  tame Messages m -> (forall a, tame Messages (k a)) -> tame Messages (main.and_then m k).
Proof.
  intros Hm Hk s s' r. unfold main.and_then.
  destruct (m s) as [s1 [a|why]] eqn:E; intros H.
  - destruct (Hm _ _ _ E) as [H1 _]. destruct (Hk a _ _ _ H) as [H2 H3].
    split; [eapply Nat.le_trans; eassumption | exact H3].
  - injection H as <- <-. destruct (Hm _ _ _ E) as [H1 H2].
    split; [exact H1|]. intros why' Hw. injection Hw as <-. apply H2. reflexivity.
Qed.

Ltac tame_step :=
  first
    [ apply tame_and_then; [|intros ?]
    | apply tame_pure
    | apply tame_emit
    | apply tame_print_format
    | apply tame_input
    | apply tame_call
    | apply tame_sys_exit
    | apply tame_close
    | match goal with |- tame _ (if ?b then _ else _) => destruct b end
    | match goal with |- tame _ (match ?x with _ => _ end) => destruct x end ].

Lemma tame_display_prompt p : tame Messages (main.display_prompt p).
Proof.
  unfold main.display_prompt, main.print. cbv zeta. repeat tame_step.
Qed.

Lemma tame_display_all l : tame Messages (main.display_all l).
Proof.
  induction l as [|p l IH]; simpl; [apply tame_pure|].
  apply tame_and_then; [apply tame_display_prompt | intros _; exact IH].
Qed.

Ltac tame_menu :=
  cbv zeta; unfold main.print, main.clear_screen, main.press_enter;
  repeat first [ apply tame_display_prompt | apply tame_display_all | tame_step ].

Lemma tame_add_prompt : tame Messages (main.add_prompt Messages).
Proof. unfold main.add_prompt. tame_menu. Qed.

Lemma tame_view_all_prompts : tame Messages main.view_all_prompts.
Proof. unfold main.view_all_prompts. tame_menu. Qed.

Lemma tame_search_prompts : tame Messages main.search_prompts.
Proof. unfold main.search_prompts. tame_menu. Qed.

Lemma tame_edit_prompt : tame Messages (main.edit_prompt Messages).
Proof. unfold main.edit_prompt. tame_menu. Qed.

Lemma tame_toggle_favorite_status : tame Messages (main.toggle_favorite_status Messages).
Proof. unfold main.toggle_favorite_status. tame_menu. Qed.

Lemma tame_delete_prompt : tame Messages (main.delete_prompt Messages).
Proof. unfold main.delete_prompt. tame_menu. Qed.

(** What a turn does after the choice was read. *)
Lemma turn_unfold s :
  main.turn Messages s
  = match main.stdin s with
    | [] =>
        (main.mkConsole [] (((main.stdout s ++ [main.Cleared])
                               ++ [main.Printed (main.Configured main.MENU [])])
                              ++ [main.Asked (main.Text "")])%list (main.db s),
         main.Stopped main.EOFError)
    | line :: rest =>
        let s1 := main.mkConsole rest
                    (((main.stdout s ++ [main.Cleared])
                        ++ [main.Printed (main.Configured main.MENU [])])
                       ++ [main.Asked (main.Text "")])%list (main.db s) in
        let choice := py.strip line in
        (if String.eqb choice "1" then main.add_prompt Messages
         else if String.eqb choice "2" then main.view_all_prompts
         else if String.eqb choice "3" then main.search_prompts
         else if String.eqb choice "4" then main.edit_prompt Messages
         else if String.eqb choice "5" then main.toggle_favorite_status Messages
         else if String.eqb choice "6" then main.delete_prompt Messages
         else if String.eqb choice "7" then
           main.and_then (main.print (main.Configured main.EXIT []))
             (fun _ => main.and_then main.close (fun _ => main.sys_exit 0))
         else
           main.and_then (main.print (main.Configured main.INVALID_CHOICE []))
             (fun _ => main.and_then main.press_enter (fun _ => main.pure tt))) s1
    end.
Proof.
  unfold main.turn, main.and_then at 1 2 3, main.clear_screen, main.print, main.emit,
    main.input. cbn [main.stdin main.stdout main.db].
  destruct (main.stdin s) as [|line rest]; reflexivity.
Qed.

Lemma tame_turn_rest line :
  tame Messages
       (let choice := py.strip line in
        if String.eqb choice "1" then main.add_prompt Messages
        else if String.eqb choice "2" then main.view_all_prompts
        else if String.eqb choice "3" then main.search_prompts
        else if String.eqb choice "4" then main.edit_prompt Messages
        else if String.eqb choice "5" then main.toggle_favorite_status Messages
        else if String.eqb choice "6" then main.delete_prompt Messages
        else if String.eqb choice "7" then
          main.and_then (main.print (main.Configured main.EXIT []))
            (fun _ => main.and_then main.close (fun _ => main.sys_exit 0))
        else
          main.and_then (main.print (main.Configured main.INVALID_CHOICE []))
            (fun _ => main.and_then main.press_enter (fun _ => main.pure tt))).
Proof.
  cbv zeta.
  repeat match goal with
         | |- tame _ (if ?b then _ else _) => destruct b
         end;
    first [ apply tame_add_prompt | apply tame_view_all_prompts
          | apply tame_search_prompts | apply tame_edit_prompt
          | apply tame_toggle_favorite_status | apply tame_delete_prompt
          | unfold main.print, main.press_enter; repeat tame_step ].
Qed.

Lemma turn_progress s s' r :
  main.turn Messages s = (s', r) ->
  (forall why, r = main.Stopped why -> expected Messages why)
  /\ (r = main.Done tt ->
      (List.length (main.stdin s') < List.length (main.stdin s))%nat).
Proof.
  rewrite turn_unfold. destruct (main.stdin s) as [|line rest] eqn:E.
  - intros H. injection H as <- <-. split; [|discriminate].
    intros why Hw. injection Hw as <-. right. left. reflexivity.
  - intros H. destruct (tame_turn_rest line _ _ _ H) as [Hl Hr].
    split; [exact Hr|]. intros _. simpl in *. lia.
Qed.

Lemma loop_ends turns :
  forall s, (List.length (main.stdin s) < turns)%nat ->
  exists s' why,
    main.loop Messages turns s = (s', main.Stopped why) /\ expected Messages why
    /\ main.loop Messages (S turns) s = main.loop Messages turns s.
Proof.
  induction turns as [|n IH]; intros s Hlen; [inversion Hlen|].
  change (main.loop Messages (S (S n)) s)
    with (main.and_then (main.turn Messages) (fun _ => main.loop Messages (S n)) s).
  change (main.loop Messages (S n) s)
    with (main.and_then (main.turn Messages) (fun _ => main.loop Messages n) s).
  unfold main.and_then.
  destruct (main.turn Messages s) as [s1 [[]|why]] eqn:Et.
  - destruct (turn_progress _ _ _ Et) as [_ Hlt]. specialize (Hlt eq_refl).
    assert (Hn : (List.length (main.stdin s1) < n)%nat) by lia.
    destruct (IH s1 Hn) as [s' [why [H1 [H2 H3]]]].
    exists s', why. rewrite H3. auto.
  - destruct (turn_progress _ _ _ Et) as [Hne _].
    exists s1, why. split; [reflexivity|]. split; [|reflexivity].
    apply Hne. reflexivity.
Qed.

End LoopFacts.

(** The menu loop on a finite list of typed lines: every turn reads at
    least one line, so [run] stops, and it never returns; it stops through
    [sys.exit(0)], through [EOFError] when the lines run out, through a
    driver error that left the storage layer, or through the exception of
    a [format] call, which happens only when a configured message is not
    set or does not format: with every message formatting, only the first
    three remain.  The bound on the turns of the model plays no part once
    it exceeds the number of lines. *)
Theorem run_ends_on_its_input
    (Messages : main.Message -> option main.Template) (s : main.ConsoleApp)
    (turns : nat) :
  (List.length (main.stdin s) < turns)%nat ->
  exists s' why,
    main.run Messages turns s = (s', main.Stopped why)
    /\ expected Messages why
    /\ ((forall m args, main.format Messages m args = None) ->
        why = main.SystemExit 0 \/ why = main.EOFError
        \/ exists e, why = main.DriverFailure e)
    /\ main.run Messages (S turns) s = main.run Messages turns s.
Proof.
  intros Hlen. unfold main.run, main.and_then, main.clear_screen, main.print, main.emit.
  cbn [main.stdin main.stdout main.db].
  destruct (loop_ends Messages turns
              (main.mkConsole (main.stdin s)
                 ((main.stdout s ++ [main.Cleared])
                    ++ [main.Printed (main.Configured main.WELCOME [])]) (main.db s)) Hlen)
    as [s' [why [H1 [H2 H3]]]].
  exists s', why. split; [exact H1|]. split; [exact H2|]. split; [|exact H3].
  intros Hall. destruct H2 as [H|[H|[H|[m [args [e [He _]]]]]]]; auto.
  rewrite Hall in He. discriminate He.
Qed.

Lemma run_ends_on_its_input_witness :
  (exists s',
     main.run sample_messages 4 (console ["9"; ""; " 7 "] [] (opened (sample_conn [])))
     = (s', main.Stopped (main.SystemExit 0)))
  /\ (exists s' why,
        main.run unset_messages 4 (console ["6"; "3"; "7"] [] (opened (sample_conn [])))
        = (s', main.Stopped why)
        /\ expected unset_messages why).
Proof.
  split.
  - eexists. reflexivity.
  - destruct (run_ends_on_its_input unset_messages
                (console ["6"; "3"; "7"] [] (opened (sample_conn []))) 4)
      as [s' [why [H1 [H2 _]]]].
    + simpl. repeat constructor.
    + exists s', why. split; [exact H1 | exact H2].
Defined.

(** The two choices of the menu that reach no menu entry, under any
    configuration.  A line that is [7] once stripped ends the program with
    [sys.exit(0)]: the farewell is shown and no statement is sent, so the
    rows stay as they are.  A line that is none of [1] to [7] once
    stripped shows the configured invalid-choice message, waits for Enter
    and leaves the storage object exactly as it was. *)
Theorem menu_exit_and_invalid
    (Messages : main.Message -> option main.Template)
    (line enter : string) (rest : list string) (shown : list main.Output) (c : Conn) :
  (py.strip line = "7" ->
   exists s',
     main.turn Messages (console (line :: rest) shown (opened c))
     = (s', main.Stopped (main.SystemExit 0))
     /\ main.stdin s' = rest
     /\ In (main.Printed (main.Configured main.EXIT [])) (main.stdout s')
     /\ exists c', main.db s' = opened c' /\ same_table c c')
  /\ (~ In (py.strip line) ["1"; "2"; "3"; "4"; "5"; "6"; "7"] ->
      main.turn Messages (console (line :: enter :: rest) shown (opened c))
      = (console rest
           (shown ++ [main.Cleared; main.Printed (main.Configured main.MENU []);
                      main.Asked (main.Text "");
                      main.Printed (main.Configured main.INVALID_CHOICE []);
                      asked_enter])
           (opened c), main.Done tt)).
Proof.
  split.
  - intros E. rewrite turn_unfold. unfold console. cbn [main.stdin main.stdout main.db].
    cbv zeta. rewrite E. cbn [String.eqb Ascii.eqb Bool.eqb].
    io_compute. cbn [database.connection opened].
    destruct c as [cm wk nid fr fl]. unfold driver_call. cbn [faults].
    destruct fl as [|[] fl]; cbn [committed working next_id found_rows];
      (eexists; split; [reflexivity|]; cbn [main.stdin main.stdout main.db];
       split; [reflexivity|]; split;
       [ rewrite !in_app_iff; simpl; tauto
       | eexists; split; [reflexivity | repeat split] ]).
  - intros Hno. rewrite turn_unfold. unfold console, asked_enter.
    cbn [main.stdin main.stdout main.db]. cbv zeta.
    assert (Hne : forall x, In x ["1"; "2"; "3"; "4"; "5"; "6"; "7"] ->
                            String.eqb (py.strip line) x = false).
    { intros x Hin. apply String.eqb_neq. intros E. apply Hno. rewrite E. exact Hin. }
    rewrite !Hne by (simpl; tauto).
    io_compute. rewrite <- !app_assoc. reflexivity.
Qed.

Lemma menu_exit_and_invalid_witness :
  (exists s',
     main.turn sample_messages (console [" 7 "; "1"] [] (opened (sample_conn [true])))
     = (s', main.Stopped (main.SystemExit 0)) /\ main.stdin s' = ["1"])
  /\ main.turn unset_messages (console ["8"; ""; "7"] [] (opened (sample_conn [])))
     = (console ["7"]
          [main.Cleared; main.Printed (main.Configured main.MENU []);
           main.Asked (main.Text "");
           main.Printed (main.Configured main.INVALID_CHOICE []); asked_enter]
          (opened (sample_conn [])), main.Done tt).
Proof.
  split.
  - destruct (proj1 (menu_exit_and_invalid sample_messages " 7 " "" ["1"] []
                       (sample_conn [true])) eq_refl)
      as [s' [H1 [H2 _]]].
    exists s'. split; [exact H1 | exact H2].
  - apply (proj2 (menu_exit_and_invalid unset_messages "8" "" ["7"] [] (sample_conn []))).
    simpl. intros [H|[H|[H|[H|[H|[H|[H|H]]]]]]]; try discriminate H; exact H.
Defined.

(* ===================================================================== *)
(** ** The console: what is shown *)
(* ===================================================================== *)

Section Shown.



End Shown.



(** A lost connection ends the program from every menu entry that
    reaches the storage: when the next driver call fails, the error that
    leaves the storage layer is caught nowhere in the console, so view,
    search, add, and edit, toggle and delete on an answer that [int]
    reads stop with it as soon as their questions are answered, and so
    does [run], whatever the configured messages. *)
Theorem lost_connection_stops_console
    (Messages : main.Message -> option main.Template)
    (cm wk : list Row) (nid : Z) (fr : bool) (fl : list bool)
    (a1 a2 a3 : string) (rest : list string) (shown : list main.Output)
    (k : Z) (turns : nat) :
  let lost := opened (mkConn cm wk nid fr (true :: fl)) in
  snd (main.view_all_prompts (console rest shown lost))
  = main.Stopped (main.DriverFailure Error)
  /\ snd (main.search_prompts (console (a1 :: a2 :: rest) shown lost))
     = main.Stopped (main.DriverFailure Error)
  /\ snd (main.add_prompt Messages (console (a1 :: a2 :: a3 :: rest) shown lost))
     = main.Stopped (main.DriverFailure Error)
  /\ (builtins.int a1 = Some k ->
      snd (main.edit_prompt Messages (console (a1 :: rest) shown lost))
      = main.Stopped (main.DriverFailure Error)
      /\ snd (main.toggle_favorite_status Messages (console (a1 :: rest) shown lost))
         = main.Stopped (main.DriverFailure Error)
      /\ snd (main.delete_prompt Messages (console (a1 :: rest) shown lost))
         = main.Stopped (main.DriverFailure Error))
  /\ snd (main.run Messages (S turns) (console (" 2 " :: rest) shown lost))
     = main.Stopped (main.DriverFailure Error).
Proof.
  cbv zeta. unfold console.
  split; [reflexivity|].
  split; [io_compute; unfold services.search_and_filter_prompts, bind;
          destruct (py.truthy a1); reflexivity|].
  split; [reflexivity|]. split.
  - intros H. repeat split; io_compute; rewrite H; reflexivity.
  - reflexivity.
Qed.

Lemma lost_connection_stops_console_witness :
  snd (main.delete_prompt unset_messages (console ["3"] [] (opened (sample_conn [true]))))
  = main.Stopped (main.DriverFailure Error).
Proof.
  exact (proj2 (proj2 (proj1 (proj2 (proj2 (proj2
    (lost_connection_stops_console unset_messages sample_rows sample_rows 5 false []
       "3" "" "" [] [] 3 0)))) eq_refl))).
Defined.

Section ToggleDeleteFacts.

Import database.

Lemma toggle_read_back c k p :
  healthy c ->
  get_prompt_by_id k (opened c) = (opened c, Ret (Some p)) ->
  exists c1,
    services.toggle_favorite_status k (opened c)
    = (opened c1, Ret (Some (negb (is_favorite p))))
    /\ get_prompt_by_id k (opened c1)
       = (opened c1, Ret (Some (mkPrompt (id p) (text p) (tags p) (tool p)
                                         (negb (is_favorite p))))).
Proof.
  intros Hc Hget.
  destruct (get_some_row c k p Hc Hget) as [row0 [more [Ef [E0 Hp]]]].
  set (r1 := mkRow k (row_text row0) (joinTags (parseTags (row_tags row0)))
                   (row_tool row0) (negb (row_is_favorite row0))).
  set (c1 := mkConn (overwrite r1 (working c)) (overwrite r1 (working c))
                    (next_id c) (found_rows c) []).
  pose proof (toggle_present c k row0 more Hc Ef) as H1. cbv zeta in H1.
  fold r1 in H1. fold c1 in H1.
  exists c1. split; [subst p; exact H1|].
  rewrite (get_healthy c1 eq_refl). unfold c1. cbn [working].
  rewrite (filter_overwrite k r1 _ eq_refl), Ef. cbn [map hd_error option_map].
  subst p. unfold row_prompt, from_dict, as_dict, r1.
  cbn [d_id d_text d_tags d_tool d_is_favorite row_id row_text row_tags row_tool
       row_is_favorite id text tags tool is_favorite].
  rewrite E0.
  change (tags_of (Some (joinTags (parseTags (row_tags row0)))))
    with (parseTags (joinTags (parseTags (row_tags row0)))).
  rewrite parse_join_parse. reflexivity.
Qed.

Lemma toggle_missing c k :
  healthy c -> no_row k c ->
  services.toggle_favorite_status k (opened c) = (opened c, Ret None).
Proof.
  intros Hc Hno. unfold services.toggle_favorite_status, bind.
  rewrite (get_healthy c Hc), (no_row_filter _ _ Hno). reflexivity.
Qed.

Lemma existsb_hit k rows :
  existsb (has_id k) rows = true <-> exists row, In row rows /\ row_id row = k.
Proof.
  rewrite existsb_exists. split; intros [row [Hin E]]; exists row;
    (split; [exact Hin|]); apply has_id_true; exact E.
Qed.

Lemma existsb_miss k rows :
  Forall (fun r => row_id r <> k) rows -> existsb (has_id k) rows = false.
Proof.
  induction 1 as [|r rows Hr _ IH]; [reflexivity|].
  simpl. apply has_id_false in Hr. rewrite Hr. exact IH.
Qed.

Lemma filter_miss k rows :
  Forall (fun r => row_id r <> k) rows ->
  filter (fun r => negb (has_id k r)) rows = rows.
Proof.
  induction 1 as [|r rows Hr _ IH]; [reflexivity|].
  simpl. apply has_id_false in Hr. rewrite Hr. simpl. rewrite IH. reflexivity.
Qed.

End ToggleDeleteFacts.

(** Toggle and delete at the console, for an answer that [int] reads, on
    a connection without faults.  For a stored id the toggle writes the
    flag negated, so that [get_prompt_details] then shows it negated and
    nothing else changed, and reports the new state ([favorited] or
    [unfavorited]) through the configured message; the delete removes the
    row, so that [get_prompt_details] then returns nothing, and reports
    through the configured deleted message.  For an id that is not stored
    both leave the storage object as it is and report through the
    configured not-found message.  Reporting shows the message and waits
    for Enter, or, when the message is not set or does not format, stops
    on the exception of [format] after the storage was changed. *)
Theorem console_toggle_and_delete
    (Messages : main.Message -> option main.Template)
    (c : Conn) (k : Z) (p : Prompt) (answer enter : string) (rest : list string)
    (shown : list main.Output) :
  healthy c -> builtins.int answer = Some k ->
  (database.get_prompt_by_id k (opened c) = (opened c, Ret (Some p)) ->
   (exists s1 r,
      main.toggle_favorite_status Messages
        (console (answer :: enter :: rest) shown (opened c))
      = (s1, r)
      /\ api.get_prompt_details k (main.db s1)
         = (main.db s1, Ret (Some (mkPrompt (id p) (text p) (tags p) (tool p)
                                            (negb (is_favorite p)))))
      /\ reports Messages main.FAVORITE_TOGGLED
           [main.IntArg k;
            main.StrArg (if is_favorite p then "unfavorited" else "favorited")]
           enter rest s1 r)
   /\ (exists s1 r,
         main.delete_prompt Messages
           (console (answer :: enter :: rest) shown (opened c))
         = (s1, r)
         /\ api.get_prompt_details k (main.db s1) = (main.db s1, Ret None)
         /\ reports Messages main.PROMPT_DELETED [main.IntArg k] enter rest s1 r))
  /\ (no_row k c -> settled c ->
      (exists s1 r,
         main.toggle_favorite_status Messages
           (console (answer :: enter :: rest) shown (opened c))
         = (s1, r)
         /\ main.db s1 = opened c
         /\ reports Messages main.PROMPT_NOT_FOUND [main.IntArg k] enter rest s1 r)
      /\ (exists s1 r,
            main.delete_prompt Messages
              (console (answer :: enter :: rest) shown (opened c))
            = (s1, r)
            /\ main.db s1 = opened c
            /\ reports Messages main.PROMPT_NOT_FOUND [main.IntArg k] enter rest s1 r)).
Proof.
  intros Hc Hint. unfold reports. split.
  - intros Hget. split.
    + destruct (toggle_read_back c k p Hc Hget) as [c1 [Ht Hback]].
      unfold console. io_compute. rewrite Hint. io_compute. rewrite Ht.
      io_compute.
      replace (if negb (is_favorite p) then "favorited" else "unfavorited")
        with (if is_favorite p then "unfavorited" else "favorited")
        by (destruct (is_favorite p); reflexivity).
      destruct (main.format Messages main.FAVORITE_TOGGLED
                  [main.IntArg k;
                   main.StrArg (if is_favorite p then "unfavorited" else "favorited")])
        as [e|]; io_compute;
        (eexists; eexists; split; [reflexivity|];
         cbn [main.stdin main.stdout main.db];
         split; [unfold services.get_prompt; exact Hback|]).
      * split; reflexivity.
      * split; [reflexivity|]. split; [reflexivity|].
        eexists. unfold asked_enter. rewrite <- app_assoc. reflexivity.
    + destruct (get_some_row c k p Hc Hget) as [row0 [more [Ef [E0 _]]]].
      pose proof (hit_in _ _ _ _ Ef) as Hrow. apply existsb_hit in Hrow.
      unfold console. io_compute. rewrite Hint. io_compute.
      unfold services.delete_prompt. rewrite (delete_healthy c Hc).
      rewrite positive_length, Hrow. io_compute.
      assert (Hgone :
                database.get_prompt_by_id k
                  (opened (mkConn (filter (fun r => negb (has_id k r)) (working c))
                                  (filter (fun r => negb (has_id k r)) (working c))
                                  (next_id c) (found_rows c) []))
                = (opened (mkConn (filter (fun r => negb (has_id k r)) (working c))
                                  (filter (fun r => negb (has_id k r)) (working c))
                                  (next_id c) (found_rows c) []), Ret None)).
      { match goal with
        | |- database.get_prompt_by_id k (opened ?c1) = _ =>
            rewrite (get_healthy c1 eq_refl)
        end.
        cbn [working]. rewrite filter_none. reflexivity. }
      destruct (main.format Messages main.PROMPT_DELETED [main.IntArg k]) as [e|];
        io_compute;
        (eexists; eexists; split; [reflexivity|];
         cbn [main.stdin main.stdout main.db];
         split; [unfold services.get_prompt; exact Hgone|]).
      * split; reflexivity.
      * split; [reflexivity|]. split; [reflexivity|].
        eexists. unfold asked_enter. rewrite <- app_assoc. reflexivity.
  - intros Hno Hset. split.
    + unfold console. io_compute. rewrite Hint. io_compute.
      rewrite (toggle_missing c k Hc Hno). io_compute.
      destruct (main.format Messages main.PROMPT_NOT_FOUND [main.IntArg k]) as [e|];
        io_compute;
        (eexists; eexists; split; [reflexivity|];
         cbn [main.stdin main.stdout main.db]; split; [reflexivity|]).
      * split; reflexivity.
      * split; [reflexivity|]. split; [reflexivity|].
        eexists. unfold asked_enter. rewrite <- app_assoc. reflexivity.
    + unfold console. io_compute. rewrite Hint. io_compute.
      unfold services.delete_prompt. rewrite (delete_healthy c Hc).
      rewrite positive_length, (existsb_miss _ _ Hno). cbv zeta.
      rewrite (filter_miss _ _ Hno). io_compute.
      assert (E : mkConn (working c) (working c) (next_id c) (found_rows c) [] = c).
      { destruct c as [cm wk nid fr fl]. unfold healthy, settled in *. simpl in *.
        subst. reflexivity. }
      rewrite E.
      destruct (main.format Messages main.PROMPT_NOT_FOUND [main.IntArg k]) as [e|];
        io_compute;
        (eexists; eexists; split; [reflexivity|];
         cbn [main.stdin main.stdout main.db]; split; [reflexivity|]).
      * split; reflexivity.
      * split; [reflexivity|]. split; [reflexivity|].
        eexists. unfold asked_enter. rewrite <- app_assoc. reflexivity.
Qed.

Lemma console_toggle_and_delete_witness :
  (exists s1,
     main.toggle_favorite_status sample_messages
       (console ["3"; ""] [] (opened (sample_conn [])))
     = (s1, main.Done tt)
     /\ api.get_prompt_details 3 (main.db s1)
        = (main.db s1,
           Ret (Some (mkPrompt (Some 3%Z) "Translate to French" ["lang"] "DeepL" false))))
  /\ (exists s1,
        main.delete_prompt unset_messages
          (console ["3"; ""] [] (opened (sample_conn [])))
        = (s1, main.Stopped (main.Uncaught main.AttributeError))
        /\ api.get_prompt_details 3 (main.db s1) = (main.db s1, Ret None))
  /\ (exists s1,
        main.delete_prompt sample_messages
          (console ["9"; ""] [] (opened (sample_conn [])))
        = (s1, main.Done tt)
        /\ main.db s1 = opened (sample_conn [])).
Proof.
  split; [|split].
  - destruct (proj1 (proj1 (console_toggle_and_delete sample_messages (sample_conn []) 3
                (mkPrompt (Some 3%Z) "Translate to French" ["lang"] "DeepL" true)
                "3" "" [] [] eq_refl eq_refl) eq_refl))
      as [s1 [r [H1 [H2 [H3 _]]]]].
    exists s1. rewrite <- H3. split; [exact H1 | exact H2].
  - destruct (proj2 (proj1 (console_toggle_and_delete unset_messages (sample_conn []) 3
                (mkPrompt (Some 3%Z) "Translate to French" ["lang"] "DeepL" true)
                "3" "" [] [] eq_refl eq_refl) eq_refl))
      as [s1 [r [H1 [H2 [H3 _]]]]].
    exists s1. rewrite <- H3. split; [exact H1 | exact H2].
  - assert (Hno : no_row 9 (sample_conn [])) by (apply no_row_check; reflexivity).
    destruct (proj2 (proj2 (console_toggle_and_delete sample_messages (sample_conn []) 9
                sample_prompt "9" "" [] [] eq_refl eq_refl) Hno eq_refl))
      as [s1 [r [H1 [H2 [H3 _]]]]].
    exists s1. rewrite <- H3. split; [exact H1 | exact H2].
Defined.
